(** * Symptom analyzer of the AI Wellness Assistant

    A shallow embedding of [wellness_assistant/utils/validators.py]
    ([Validators.sanitize_symptom_input]) and of
    [wellness_assistant/core/symptoms.py] ([SymptomDetector]), together with
    the properties of the sanitizer, the red-flag matcher, the urgency
    classifier and the response renderer.

    A Python [str] is a sequence of Unicode code points: it is modelled as a
    list of [N].  Literals are written as in the source and decoded from the
    UTF-8 bytes of the file.  Exceptions are modelled by an error monad. *)

From Stdlib Require Import Strings.String Strings.Ascii.
From Stdlib Require Import List NArith ZArith Arith Bool Lia.
Import ListNotations.

Set Implicit Arguments.

(** ** Python strings *)

Definition codepoint : Type := N.
Definition str : Type := list codepoint.

(** Decoder of UTF-8: [k] continuation bytes are still expected for the code
    point accumulated in [acc]. *)
Fixpoint utf8_decode (bs : list N) (acc : N) (k : nat) : str :=
  match bs with
  | [] => []
  | b :: rest =>
      match k with
      | O =>
          if (b <? 128)%N then b :: utf8_decode rest 0%N 0
          else if (b <? 224)%N then utf8_decode rest (N.land b 31) 1
          else if (b <? 240)%N then utf8_decode rest (N.land b 15) 2
          else utf8_decode rest (N.land b 7) 3
      | S k' =>
          let acc' := (acc * 64 + N.land b 63)%N in
          match k' with
          | O => acc' :: utf8_decode rest 0%N 0
          | S _ => utf8_decode rest acc' k'
          end
      end
  end.

(** A source literal, as the code points it denotes. *)
Definition py (s : string) : str :=
  utf8_decode (map N_of_ascii (list_ascii_of_string s)) 0%N 0.

(** ["\n"] *)
Definition nl : str := [10%N].

Fixpoint str_eqb (a b : str) : bool :=
  match a, b with
  | [], [] => true
  | x :: a', y :: b' => N.eqb x y && str_eqb a' b'
  | _, _ => false
  end.

(** [x in xs] for a list of strings. *)
Definition str_in (x : str) (xs : list str) : bool := existsb (str_eqb x) xs.

(** [s.startswith(p)] *)
Fixpoint startswith (p s : str) : bool :=
  match p, s with
  | [], _ => true
  | a :: p', b :: s' => N.eqb a b && startswith p' s'
  | _ :: _, [] => false
  end.

(** [p in s] for strings: [p] occurs in [s] as a contiguous substring. *)
Fixpoint contains (p s : str) : bool :=
  startswith p s ||
  match s with
  | [] => false
  | _ :: s' => contains p s'
  end.

(** ["sep".join(xs)] *)
Fixpoint join (sep : str) (xs : list str) : str :=
  match xs with
  | [] => []
  | [x] => x
  | x :: rest => x ++ sep ++ join sep rest
  end.

(** ** The Unicode character database

    [str.strip], [str.lower] and the classes [\s] and [\w] of the [re] module
    consult the Unicode database of the interpreter.  The embedding takes it
    as an interface; [latin1] below is the instance used to evaluate the
    code on concrete texts. *)
Record Unicode : Type := {
  isspace : codepoint -> bool;   (* [\s], [str.isspace] *)
  isalnum : codepoint -> bool;   (* [str.isalnum]; [\w] adds [_] *)
  lower : str -> str             (* [str.lower] *)
}.

Definition in_range (lo hi c : N) : bool := ((lo <=? c) && (c <=? hi))%N.

(** Whitespace of Unicode (complete). *)
Definition unicode_isspace (c : codepoint) : bool :=
  in_range 9 13 c || in_range 28 32 c || N.eqb c 133 || N.eqb c 160
  || N.eqb c 5760 || in_range 8192 8202 c || in_range 8232 8233 c
  || N.eqb c 8239 || N.eqb c 8287 || N.eqb c 12288.

(** Alphanumeric code points of the blocks Basic Latin and Latin-1
    Supplement (U+0000 to U+00FF). *)
Definition latin1_isalnum (c : codepoint) : bool :=
  in_range 48 57 c || in_range 65 90 c || in_range 97 122 c
  || N.eqb c 170 || in_range 178 179 c || N.eqb c 181 || in_range 185 186 c
  || in_range 188 190 c || in_range 192 214 c || in_range 216 246 c
  || in_range 248 255 c.

(** Lower-case mapping of the same two blocks. *)
Definition latin1_lower_char (c : codepoint) : codepoint :=
  if in_range 65 90 c || in_range 192 214 c || in_range 216 222 c
  then (c + 32)%N else c.

(** The database restricted to U+0000..U+00FF; code points above that are
    classified for whitespace only and have no case mapping here. *)
Definition latin1 : Unicode := {|
  isspace := unicode_isspace;
  isalnum := latin1_isalnum;
  lower := map latin1_lower_char
|}.

(** ** Exceptions *)

Inductive exn : Type :=
| ValidationError (msg : str).

(** [str(e)] *)
Definition exn_str (e : exn) : str :=
  match e with ValidationError msg => msg end.

Inductive result (A : Type) : Type :=
| Ok (a : A)
| Raise (e : exn).

Arguments Ok {A} a.
Arguments Raise {A} e.

Definition bind {A B : Type} (m : result A) (k : A -> result B) : result B :=
  match m with
  | Ok a => k a
  | Raise e => Raise e
  end.

(** [try: body except Exception as e: handler(e)] *)
Definition try_except {A : Type} (body : result A) (handler : exn -> result A)
  : result A :=
  match body with
  | Ok a => Ok a
  | Raise e => handler e
  end.

Notation "x <- m ;; k" := (bind m (fun x => k))
  (at level 61, m at next level, right associativity).

Definition raises {A : Type} (m : result A) : Prop :=
  exists msg, m = Raise (ValidationError msg).

(** ** validators.py *)

Section Validators.
Variable U : Unicode.

(** [s.lstrip()] *)
Fixpoint lstrip (s : str) : str :=
  match s with
  | [] => []
  | c :: s' => if isspace U c then lstrip s' else s
  end.

(** [s.rstrip()] *)
Definition rstrip (s : str) : str := rev (lstrip (rev s)).

(** [s.strip()] *)
Definition strip (s : str) : str := rstrip (lstrip s).

(** [re.sub(r'\s+', ' ', s)]: every maximal run of whitespace becomes one
    space.  [in_run] holds when the previous character belonged to a run
    that has already been replaced. *)
Fixpoint collapse_from (in_run : bool) (s : str) : str :=
  match s with
  | [] => []
  | c :: s' =>
      if isspace U c
      then if in_run then collapse_from true s'
           else 32%N :: collapse_from true s'
      else c :: collapse_from false s'
  end.

Definition collapse_whitespace (s : str) : str := collapse_from false s.

(** The class [[\w\s\-.,!?]]. *)
Definition kept (c : codepoint) : bool :=
  isalnum U c || N.eqb c 95        (* \w *)
  || isspace U c                   (* \s *)
  || N.eqb c 45 || N.eqb c 46 || N.eqb c 44 || N.eqb c 33 || N.eqb c 63.

(** [re.sub(r'[^\w\s\-.,!?]', '', s)] *)
Definition remove_harmful (s : str) : str := filter kept s.

(** The value of [symptom] when its length is tested. *)
Definition cleaned (symptom : str) : str :=
  let symptom := collapse_whitespace (strip symptom) in
  let symptom := remove_harmful symptom in
  symptom.

Definition sanitize_symptom_input (symptom : str) : result str :=
  let symptom := collapse_whitespace (strip symptom) in
  let symptom := remove_harmful symptom in
  if length symptom <? 3
  then Raise (ValidationError
                (py "Symptom description must be at least 3 characters"))
  else if 500 <? length symptom
  then Raise (ValidationError
                (py "Symptom description must be less than 500 characters"))
  else Ok (lower U symptom).

End Validators.

(** ** config.py *)

Definition MEDICAL_DISCLAIMER : str :=
  py "⚠️  IMPORTANT DISCLAIMER: This advice is for general wellness purposes only. "
  ++ py "It is not a substitute for professional medical advice, diagnosis, or treatment. "
  ++ py "Always consult with a qualified healthcare provider for medical concerns.".

(** ** symptoms.py *)

(** A detected red flag: the dictionary with the keys ["category"],
    ["pattern"] and ["severity"]. *)
Record flag : Type := {
  category : str;
  pattern : str;
  severity : str
}.

(** A dictionary with string keys, in insertion order. *)
Definition dict (V : Type) : Type := list (str * V).

(** [d.get(k)]; [k in d] is [dict_get k d <> None]. *)
Fixpoint dict_get {V : Type} (k : str) (d : dict V) : option V :=
  match d with
  | [] => None
  | (k', v) :: d' => if str_eqb k k' then Some v else dict_get k d'
  end.

(** [self.emergency_advice] *)
Definition emergency_advice : dict str := [
  (py "chest", py "🚨 URGENT: Chest pain can be a sign of a heart attack. Call emergency services (911) immediately.");
  (py "breathing", py "🚨 URGENT: Difficulty breathing requires immediate medical attention. Call 911.");
  (py "headache", py "🚨 URGENT: Sudden severe headache may indicate stroke or aneurysm. Seek emergency care.");
  (py "vision", py "🚨 URGENT: Sudden vision loss requires immediate medical attention.");
  (py "weakness", py "🚨 URGENT: Sudden weakness may indicate stroke. Call 911 immediately.");
  (py "consciousness", py "🚨 URGENT: Loss of consciousness requires emergency medical care.");
  (py "blood", py "⚠️  Blood in stool, urine, or coughing blood requires immediate medical evaluation.");
  (py "fever", py "⚠️  High fever (over 103°F/39.4°C) requires medical attention.");
  (py "allergic", py "🚨 URGENT: Severe allergic reactions can be life-threatening. Call 911.")
].

Definition red_flag_categories : dict (list str) := [
  (py "chest", [py "chest pain"; py "chest pressure"; py "chest tightness"; py "heart pain"]);
  (py "breathing", [py "shortness of breath"; py "difficulty breathing"; py "can't breathe"; py "trouble breathing"]);
  (py "headache", [py "sudden severe headache"; py "worst headache"; py "severe headache"]);
  (py "vision", [py "vision loss"; py "loss of vision"; py "sudden vision changes"; py "blind"; py "can't see"]);
  (py "weakness", [py "weakness on one side"; py "facial drooping"; py "speech problems"; py "slurred speech"]);
  (py "consciousness", [py "loss of consciousness"; py "fainting"; py "passed out"; py "unconscious"]);
  (py "blood", [py "blood in stool"; py "blood in urine"; py "coughing blood"; py "vomiting blood"]);
  (py "fever", [py "high fever"; py "fever over 103"; py "burning up"]);
  (py "allergic", [py "severe allergic reaction"; py "anaphylaxis"; py "swelling face"; py "difficulty swallowing"])
].

Definition concerning_patterns : list str := [
  py "severe pain"; py "extreme pain"; py "unbearable pain";
  py "sudden onset"; py "came on suddenly"; py "started suddenly";
  py "getting worse"; py "worsening"; py "worse than ever"
].

Definition emergency_categories : list str :=
  [py "chest"; py "breathing"; py "consciousness"; py "allergic"].

Definition urgent_categories : list str :=
  [py "headache"; py "vision"; py "weakness"; py "blood"; py "fever"].

(** The inner loop of the matcher, [for pattern in patterns: if pattern in
    description_lower: red_flags.append(...)], threading [red_flags]. *)
Definition scan_patterns (cat sev : str) (description_lower : str)
    (patterns : list str) (red_flags : list flag) : list flag :=
  fold_left
    (fun red_flags pattern =>
       if contains pattern description_lower
       then red_flags ++ [{| category := cat; pattern := pattern; severity := sev |}]
       else red_flags)
    patterns red_flags.

Definition _detect_red_flags (U : Unicode) (description : str) : list flag :=
  let red_flags := [] in
  let description_lower := lower U description in
  let red_flags :=
    fold_left
      (fun red_flags '(category, patterns) =>
         scan_patterns category (py "high") description_lower patterns red_flags)
      red_flag_categories red_flags in
  let red_flags :=
    scan_patterns (py "concerning") (py "medium") description_lower
      concerning_patterns red_flags in
  red_flags.

(** A loop [for flag in red_flags: if flag["category"] in cats: return ...]
    returns at the first such flag, so it returns when one exists. *)
Definition _assess_urgency (red_flags : list flag) : str :=
  match red_flags with
  | [] => py "low"
  | _ :: _ =>
      if existsb (fun flag => str_in (category flag) emergency_categories) red_flags
      then py "emergency"
      else if existsb (fun flag => str_in (category flag) urgent_categories) red_flags
      then py "urgent"
      else if 3 <=? length red_flags
      then py "urgent"
      else py "moderate"
  end.

(** [for flag in red_flags: if flag["category"] in self.emergency_advice:
    response.append(self.emergency_advice[flag["category"]]); break] *)
Fixpoint append_emergency_advice (red_flags : list flag) (response : list str)
  : list str :=
  match red_flags with
  | [] => response
  | flag :: rest =>
      match dict_get (category flag) emergency_advice with
      | Some advice => response ++ [advice]
      | None => append_emergency_advice rest response
      end
  end.

(** The list [response] of [_generate_response] just before it is joined. *)
Definition response_lines (description : str) (red_flags : list flag)
    (urgency : str) : list str :=
  let response := [] in
  let response :=
    if str_eqb urgency (py "emergency") then
      let response := response ++ [py "🚨 MEDICAL EMERGENCY DETECTED 🚨"] in
      let response := response ++ [py "This appears to be a medical emergency. Call 911 or emergency services IMMEDIATELY."] in
      append_emergency_advice red_flags response
    else if str_eqb urgency (py "urgent") then
      let response := response ++ [py "⚠️  URGENT MEDICAL ATTENTION NEEDED"] in
      response ++ [py "These symptoms require prompt medical evaluation. Contact your doctor or visit urgent care immediately."]
    else if str_eqb urgency (py "moderate") then
      let response := response ++ [py "⚠️  Medical Consultation Recommended"] in
      response ++ [py "Consider scheduling an appointment with your healthcare provider to discuss these symptoms."]
    else
      let response := response ++ [py "ℹ️  General Wellness Information"] in
      response ++ [py "While these symptoms may not be immediately concerning, monitor them and consult a healthcare professional if they persist or worsen."]
  in
  let response :=
    match red_flags with
    | [] => response
    | _ :: _ =>
        let response := response ++ [nl ++ py "Detected concerning symptoms:"] in
        fold_left (fun response flag => response ++ [py "• " ++ pattern flag])
          (firstn 3 red_flags) response
    end in
  let response := response ++ [nl ++ MEDICAL_DISCLAIMER] in
  let response :=
    if str_in urgency [py "low"; py "moderate"] then
      let response := response ++ [nl ++ py "General self-care tips:"] in
      let response := response ++ [py "• Stay hydrated"] in
      let response := response ++ [py "• Get adequate rest"] in
      let response := response ++ [py "• Monitor symptoms"] in
      response ++ [py "• Keep a symptom diary"]
    else response in
  response.

Definition _generate_response (description : str) (red_flags : list flag)
    (urgency : str) : str :=
  join nl (response_lines description red_flags urgency).

(** A reading of the clock, [datetime.now()]. *)
Definition datetime : Type := N.

(** The dictionary returned when the analysis went through. *)
Record analysis : Type := {
  original_input : str;
  cleaned_input : str;
  red_flags : list flag;
  urgency_level : str;
  response : str;
  timestamp : datetime;
  requires_medical_attention : bool
}.

(** The dictionary returned by the [except] branch: it has the keys
    ["error"], ["response"] and ["requires_medical_attention"] only. *)
Record failure : Type := {
  error : str;
  failure_response : str;
  failure_requires_medical_attention : bool
}.

Inductive report : Type :=
| Analysis (a : analysis)
| Failure (f : failure).

Definition analyze_symptoms (U : Unicode) (now : datetime)
    (symptom_description : str) : result report :=
  try_except
    (clean_description <- sanitize_symptom_input U symptom_description ;;
     let red_flags := _detect_red_flags U clean_description in
     let urgency := _assess_urgency red_flags in
     let response := _generate_response clean_description red_flags urgency in
     Ok (Analysis {|
       original_input := symptom_description;
       cleaned_input := clean_description;
       red_flags := red_flags;
       urgency_level := urgency;
       response := response;
       timestamp := now;
       requires_medical_attention :=
         str_in urgency [py "emergency"; py "urgent"]
     |}))
    (fun e =>
     Ok (Failure {|
       error := py "Error analyzing symptoms: " ++ exn_str e;
       failure_response :=
         py "Unable to analyze symptoms. Please consult a healthcare professional.";
       failure_requires_medical_attention := true
     |})).

(** ** Notions used to state the properties *)

(** [p] occurs in [s] as a contiguous substring. *)
Definition occurs (p s : str) : Prop := exists pre post, s = pre ++ p ++ post.

(** Two adjacent whitespace characters somewhere in [s]. *)
Fixpoint has_whitespace_run (U : Unicode) (s : str) : bool :=
  match s with
  | c :: ((d :: _) as s') =>
      (isspace U c && isspace U d) || has_whitespace_run U s'
  | _ => false
  end.

(** [s] starts (ends) with a whitespace character. *)
Definition starts_space (U : Unicode) (s : str) : bool :=
  match s with
  | c :: _ => isspace U c
  | [] => false
  end.

Definition ends_space (U : Unicode) (s : str) : bool := starts_space U (rev s).

(** Whitespace-normalized: no run of whitespace, none at either end. *)
Definition normalized (U : Unicode) (s : str) : bool :=
  negb (has_whitespace_run U s) && negb (starts_space U s)
  && negb (ends_space U s).

(** The code points U+0000..U+00FF. *)
Definition latin1_block : list codepoint := map N.of_nat (seq 0 256).

(** Every phrase the matcher looks for, in scan order. *)
Definition catalogue_phrases : list str :=
  flat_map snd red_flag_categories ++ concerning_patterns.

(** A raw text of 501 characters: ["abc"] followed by 498 spaces. *)
Definition long_padded : str := py "abc" ++ repeat 32%N 498.

(** The lines appended by the first [if] of [_generate_response]: the
    banner, the directive and, for an emergency, the instruction. *)
Definition banner_lines (red_flags : list flag) (urgency : str) : list str :=
  let response := [] in
  if str_eqb urgency (py "emergency") then
    let response := response ++ [py "🚨 MEDICAL EMERGENCY DETECTED 🚨"] in
    let response := response ++ [py "This appears to be a medical emergency. Call 911 or emergency services IMMEDIATELY."] in
    append_emergency_advice red_flags response
  else if str_eqb urgency (py "urgent") then
    let response := response ++ [py "⚠️  URGENT MEDICAL ATTENTION NEEDED"] in
    response ++ [py "These symptoms require prompt medical evaluation. Contact your doctor or visit urgent care immediately."]
  else if str_eqb urgency (py "moderate") then
    let response := response ++ [py "⚠️  Medical Consultation Recommended"] in
    response ++ [py "Consider scheduling an appointment with your healthcare provider to discuss these symptoms."]
  else
    let response := response ++ [py "ℹ️  General Wellness Information"] in
    response ++ [py "While these symptoms may not be immediately concerning, monitor them and consult a healthcare professional if they persist or worsen."].

(** A line of the form ["• ..."]. *)
Definition is_bullet (l : str) : bool := startswith (py "• ") l.

(** The section "detected symptoms": a heading and one bullet for each of
    the first three matches, or nothing when there is no match. *)
Definition detected_symptoms (red_flags : list flag) : list str :=
  match red_flags with
  | [] => []
  | _ :: _ =>
      (nl ++ py "Detected concerning symptoms:")
        :: map (fun flag => py "• " ++ pattern flag) (firstn 3 red_flags)
  end.

(** The section of general advice. *)
Definition self_care_tips : list str := [
  nl ++ py "General self-care tips:";
  py "• Stay hydrated";
  py "• Get adequate rest";
  py "• Monitor symptoms";
  py "• Keep a symptom diary"
].

(** The character [a] immediately followed by [b] somewhere in [s]. *)
Fixpoint adjacent (a b : codepoint) (s : str) : bool :=
  match s with
  | c :: ((d :: _) as s') => (N.eqb c a && N.eqb d b) || adjacent a b s'
  | _ => false
  end.

Definition head_is (b : codepoint) (s : str) : bool :=
  match s with
  | c :: _ => N.eqb c b
  | [] => false
  end.

(** A line feed in [s]. *)
Definition has_line_break (s : str) : bool := existsb (N.eqb 10%N) s.

(** What the proofs need of a line of the banner: it is no bullet, it does
    not start with a line feed or with [G], and [G] never follows a line
    feed in it. *)
Definition plain_line (l : str) : bool :=
  negb (is_bullet l) && negb (head_is 10%N l) && negb (head_is 71%N l)
  && negb (adjacent 10%N 71%N l).

(** ** Further notions *)

(** The order of the urgency levels, lowest first. *)
Definition urgency_rank (urgency : str) : nat :=
  if str_eqb urgency (py "emergency") then 3
  else if str_eqb urgency (py "urgent") then 2
  else if str_eqb urgency (py "moderate") then 1
  else 0.

(** [Config.RED_FLAG_SYMPTOMS], which [SymptomDetector.__init__] stores in
    [self.red_flag_symptoms] and no method reads. *)
Definition RED_FLAG_SYMPTOMS : list str := [
  py "chest pain"; py "chest pressure"; py "chest tightness";
  py "shortness of breath"; py "difficulty breathing"; py "can't breathe";
  py "sudden severe headache"; py "severe headache";
  py "vision loss"; py "loss of vision"; py "sudden vision changes";
  py "weakness on one side"; py "facial drooping"; py "speech problems";
  py "severe abdominal pain"; py "severe stomach pain";
  py "blood in stool"; py "blood in urine"; py "coughing blood";
  py "high fever"; py "fever over 103"; py "sudden confusion";
  py "severe allergic reaction"; py "difficulty swallowing";
  py "loss of consciousness"; py "fainting"; py "seizure"
].

(** ** validators.py: the validators of habits *)

(** The built-in exceptions these functions can meet, next to
    [ValidationError]. *)
Inductive pyexn : Type :=
| PyValidationError (msg : str)
| KeyError (key : str)
| ValueError (msg : str)
| TypeError (msg : str)
| OverflowError (msg : str).

Inductive outcome (A : Type) : Type :=
| Returns (a : A)
| Raises (e : pyexn).

Arguments Returns {A} a.
Arguments Raises {A} e.

Definition and_then {A B : Type} (m : outcome A) (k : A -> outcome B)
  : outcome B :=
  match m with
  | Returns a => k a
  | Raises e => Raises e
  end.

(** A [float]: a finite one is [m * 2^e]; comparisons with NaN are false. *)
Inductive pyfloat : Type :=
| Finite (m e : Z)
| PosInf
| NegInf
| NaN.

(** An [int] or a [float]. *)
Inductive pynumber : Type :=
| PyInt (z : Z)
| PyFloat (f : pyfloat).

(** Any object: a number, or something that is neither [int] nor
    [float]. *)
Inductive pyvalue : Type :=
| PyNum (v : pynumber)
| PyOther.

(** [v < k] and [v > k] for an integer [k]: Python compares an [int] and a
    [float] exactly. *)
Definition lt_int (v : pynumber) (k : Z) : bool :=
  match v with
  | PyInt z => (z <? k)%Z
  | PyFloat (Finite m e) =>
      if (0 <=? e)%Z then (m * 2 ^ e <? k)%Z else (m <? k * 2 ^ (- e))%Z
  | PyFloat PosInf => false
  | PyFloat NegInf => true
  | PyFloat NaN => false
  end.

Definition gt_int (v : pynumber) (k : Z) : bool :=
  match v with
  | PyInt z => (k <? z)%Z
  | PyFloat (Finite m e) =>
      if (0 <=? e)%Z then (k <? m * 2 ^ e)%Z else (k * 2 ^ (- e) <? m)%Z
  | PyFloat PosInf => true
  | PyFloat NegInf => false
  | PyFloat NaN => false
  end.

(** [float(v)]; for an [int] it is exact up to [2^53], far above every
    bound of [VALID_HABITS]. *)
Definition to_float (v : pynumber) : pyfloat :=
  match v with
  | PyInt z => Finite z 0
  | PyFloat f => f
  end.

(** [int(v)]: truncation towards zero; NaN and the infinities raise. *)
Definition to_int (v : pynumber) : outcome Z :=
  match v with
  | PyInt z => Returns z
  | PyFloat (Finite m e) =>
      if (0 <=? e)%Z then Returns (m * 2 ^ e)%Z
      else Returns (Z.quot m (2 ^ (- e)))
  | PyFloat NaN => Raises (ValueError (py "cannot convert float NaN to integer"))
  | PyFloat _ =>
      Raises (OverflowError (py "cannot convert float infinity to integer"))
  end.

(** An entry of [VALID_HABITS]. *)
Record habit_config : Type := {
  cfg_units : list str;
  cfg_min : Z;
  cfg_max : Z
}.

Definition VALID_HABITS : dict habit_config := [
  (py "sleep", {| cfg_units := [py "hours"]; cfg_min := 0; cfg_max := 24 |});
  (py "water", {| cfg_units := [py "liters"; py "cups"; py "ml"]; cfg_min := 0; cfg_max := 10 |});
  (py "exercise", {| cfg_units := [py "minutes"; py "hours"]; cfg_min := 0; cfg_max := 480 |});
  (py "mood", {| cfg_units := [py "scale"]; cfg_min := 1; cfg_max := 10 |});
  (py "meals", {| cfg_units := [py "count"]; cfg_min := 0; cfg_max := 10 |});
  (py "weight", {| cfg_units := [py "kg"; py "lbs"]; cfg_min := 30; cfg_max := 500 |});
  (py "steps", {| cfg_units := [py "count"]; cfg_min := 0; cfg_max := 50000 |})
].

(** [validate_mood_scale]: the [except] clause catches [ValueError] and
    [TypeError] only, so the [ValidationError] raised inside the [try] and
    an [OverflowError] of [int] pass through. *)
Definition validate_mood_scale (mood : pynumber) : outcome Z :=
  match
    and_then (to_int mood) (fun mood_int =>
      if (mood_int <? 1)%Z || (10 <? mood_int)%Z
      then Raises (PyValidationError (py "Mood must be between 1 and 10"))
      else Returns mood_int)
  with
  | Raises (ValueError _) | Raises (TypeError _) =>
      Raises (PyValidationError (py "Mood must be a number between 1 and 10"))
  | other => other
  end.

Section HabitValidators.
Variable U : Unicode.
(** The renderings [f"{type(value)}"], [f"{value}"] and [f"{n}"] of the
    messages. *)
Variable str_type : pyvalue -> str.
Variable str_number : pynumber -> str.
Variable str_int : Z -> str.

Definition validate_habit (habit : str) : outcome str :=
  let habit := strip U (lower U habit) in
  if negb (str_in habit (map fst VALID_HABITS)) then
    let valid_habits := join (py ", ") (map fst VALID_HABITS) in
    Raises (PyValidationError
              (py "Invalid habit '" ++ habit ++ py "'. Valid habits: "
               ++ valid_habits))
  else Returns habit.

Definition validate_value (habit : str) (value : pyvalue) : outcome pyfloat :=
  match dict_get habit VALID_HABITS with
  | None => Raises (KeyError habit)
  | Some habit_config =>
      match value with
      | PyOther =>
          Raises (PyValidationError
                    (py "Value must be a number, got " ++ str_type value))
      | PyNum v =>
          if lt_int v (cfg_min habit_config) || gt_int v (cfg_max habit_config)
          then Raises (PyValidationError
                    (py "Value " ++ str_number v ++ py " is out of range for "
                     ++ habit ++ py ". " ++ py "Range: "
                     ++ str_int (cfg_min habit_config) ++ py "-"
                     ++ str_int (cfg_max habit_config)))
          else Returns (to_float v)
      end
  end.

Definition validate_unit (habit unit : str) : outcome str :=
  match dict_get habit VALID_HABITS with
  | None => Raises (KeyError habit)
  | Some habit_config =>
      let unit := strip U (lower U unit) in
      if negb (str_in unit (cfg_units habit_config)) then
        let valid_units := join (py ", ") (cfg_units habit_config) in
        Raises (PyValidationError
                  (py "Invalid unit '" ++ unit ++ py "' for " ++ habit
                   ++ py ". Valid units: " ++ valid_units))
      else Returns unit
  end.

End HabitValidators.

(** ** Output *)

(** What a function writes: [print(s)], the prompt of [input(s)], and the
    two calls of the console of the command line, [console.print(text,
    style=...)] and [console.print(Panel(body, title=..., border_style=...))]. *)
Inductive event : Type :=
| Print (s : str)
| Prompt (s : str)
| ConsolePrint (text style : str)
| ConsolePanel (body title border_style : str).

(** ** tracker.py *)

(** The dataclass [HabitEntry] of storage.py. *)
Record HabitEntry : Type := {
  entry_habit : str;
  entry_value : pyfloat;
  entry_unit : str;
  entry_timestamp : datetime;
  entry_notes : option str
}.

Section Tracker.
Variable U : Unicode.
Variable str_type : pyvalue -> str.
Variable str_number : pynumber -> str.
Variable str_int : Z -> str.
(** [str(e)] for the built-in exceptions. *)
Variable str_exn : pyexn -> str.
(** The storage manager: [self.storage.add_habit_entry(entry)] answers
    [True] or [False], changes the store and may print. *)
Variable Store : Type.
Variable add_habit_entry : HabitEntry -> Store -> bool * Store * list event.

(** [if notes:] *)
Definition notes_given (notes : option str) : option str :=
  match notes with
  | Some (c :: n) => Some (c :: n)
  | _ => None
  end.

Definition track_habit (habit : str) (value : pyvalue) (unit : str)
    (notes : option str) (timestamp : option datetime) (now : datetime)
    (store : Store) : bool * Store * list event :=
  match
    and_then (validate_habit U habit) (fun habit =>
    and_then (validate_value str_type str_number str_int habit value)
      (fun value =>
    and_then (validate_unit U habit unit) (fun unit =>
    Returns (habit, value, unit))))
  with
  | Returns (habit, value, unit) =>
      let timestamp :=
        match timestamp with
        | None => now
        | Some t => t
        end in
      let entry := {| entry_habit := habit; entry_value := value;
                      entry_unit := unit; entry_timestamp := timestamp;
                      entry_notes := notes |} in
      let '(success, store, out) := add_habit_entry entry store in
      let out :=
        if success then
          let out :=
            out ++ [Print (py "âœ… Tracked " ++ habit ++ py ": "
                           ++ str_number (PyFloat value) ++ py " " ++ unit)] in
          match notes_given notes with
          | Some notes => out ++ [Print (py "   Note: " ++ notes)]
          | None => out
          end
        else out ++ [Print (py "âŒ Failed to track " ++ habit)] in
      (success, store, out)
  | Raises (PyValidationError msg) =>
      (false, store, [Print (py "âŒ Validation Error: " ++ msg)])
  | Raises e =>
      (false, store, [Print (py "âŒ Error tracking habit: " ++ str_exn e)])
  end.

End Tracker.

(** ** symptoms.py and commands.py: the symptom checkers *)

(** What [input("> ")] does: it returns a line, or the user interrupts, or
    the input is at its end. *)
Inductive input_outcome : Type :=
| Line (s : str)
| Interrupted
| EndOfInput.

Section SymptomCheckers.
Variable U : Unicode.
(** [str.title] *)
Variable title : str -> str.

Definition check_symptoms_interactive (now : datetime) (inp : input_outcome)
  : list event :=
  let out := [Print (nl ++ py "🩺 Symptom Checker");
              Print (py "Describe your symptoms below. This tool will help identify if you need immediate medical attention.");
              Print MEDICAL_DISCLAIMER;
              Print (nl ++ py "What symptoms are you experiencing?")] in
  let out := out ++ [Prompt (py "> ")] in
  match inp with
  | Line line =>
      let symptoms := strip U line in
      match symptoms with
      | [] => out ++ [Print (py "No symptoms entered.")]
      | _ :: _ =>
          match analyze_symptoms U now symptoms with
          | Ok (Failure f) => out ++ [Print (py "❌ " ++ error f)]
          | Ok (Analysis a) =>
              let out := out ++ [Print (nl ++ response a)] in
              if requires_medical_attention a
              then out ++ [Print (nl ++ py "📝 This symptom check was logged with urgency level: " ++ urgency_level a)]
              else out
          | Raise e =>
              out ++ [Print (py "❌ Error during symptom check: " ++ exn_str e)]
          end
      end
  | Interrupted => out ++ [Print (nl ++ py "👋 Symptom check cancelled")]
  | EndOfInput =>
      out ++ [Print (py "❌ Error during symptom check: "
                     ++ py "EOF when reading a line")]
  end.

(** [urgency_colors] of the command [symptom]. *)
Definition urgency_colors : dict str := [
  (py "emergency", py "red");
  (py "urgent", py "yellow");
  (py "moderate", py "blue");
  (py "low", py "green")
].

(** [d.get(k, default)] *)
Definition dict_get_default {V : Type} (k : str) (default : V) (d : dict V)
  : V :=
  match dict_get k d with
  | Some v => v
  | None => default
  end.

(** The command [symptom] of the command line.  It has no handler of its
    own: an exception of the analysis ends the command. *)
Definition check_symptoms (description : option str) (now : datetime)
    (inp : input_outcome) : list event * option exn :=
  match description with
  | Some (c :: d) =>
      let description := c :: d in
      let out := [ConsolePrint (py "🩺 Analyzing symptoms...") (py "bold blue")] in
      match analyze_symptoms U now description with
      | Raise e => (out, Some e)
      | Ok (Failure f) =>
          (out ++ [ConsolePrint (py "❌ " ++ error f) (py "red")], None)
      | Ok (Analysis a) =>
          let urgency := urgency_level a in
          let color := dict_get_default urgency (py "white") urgency_colors in
          (out ++ [ConsolePanel (response a)
                     (py "Symptom Analysis - " ++ title urgency
                      ++ py " Priority")
                     color], None)
      end
  | _ =>
      ([ConsolePrint (py "🩺 Interactive Symptom Checker") (py "bold blue")]
       ++ check_symptoms_interactive now inp, None)
  end.

End SymptomCheckers.

(** * Properties *)

(** ** Strings and lists *)

Lemma str_eqb_eq (a b : str) : str_eqb a b = true <-> a = b.
Proof.
  revert b; induction a as [|x a IH]; intros [|y b]; simpl;
    try (split; [discriminate | discriminate]); try tauto.
  rewrite andb_true_iff, N.eqb_eq, IH.
  split; [intros [-> ->]; reflexivity | intros H; inversion H; auto].
Qed.

Lemma str_eqb_refl (a : str) : str_eqb a a = true.
Proof. apply str_eqb_eq; reflexivity. Qed.

Lemma str_in_In (x : str) (xs : list str) : str_in x xs = true <-> In x xs.
Proof.
  unfold str_in; rewrite existsb_exists; split.
  - intros (y & Hy & Heq); apply str_eqb_eq in Heq; subst; assumption.
  - intros H; exists x; split; [assumption | apply str_eqb_refl].
Qed.

Lemma str_in_false (x : str) (xs : list str) :
  str_in x xs = false <-> ~ In x xs.
Proof.
  rewrite <- str_in_In; destruct (str_in x xs); split; congruence.
Qed.

Lemma startswith_spec (p s : str) :
  startswith p s = true <-> exists post, s = p ++ post.
Proof.
  revert s; induction p as [|a p IH]; intros s; simpl.
  - split; [intros _; exists s; reflexivity | reflexivity].
  - destruct s as [|b s].
    + split; [discriminate | intros [post H]; discriminate].
    + rewrite andb_true_iff, N.eqb_eq, IH; split.
      * intros [-> [post ->]]; exists post; reflexivity.
      * intros [post H]; inversion H; subst; split; [reflexivity|].
        exists post; reflexivity.
Qed.

Lemma contains_spec (p s : str) : contains p s = true <-> occurs p s.
Proof.
  unfold occurs; induction s as [|c s IH]; simpl.
  - rewrite orb_false_r, startswith_spec; split.
    + intros [post H]; exists [], post; assumption.
    + intros (pre & post & H); destruct pre; simpl in H.
      * exists post; assumption.
      * discriminate.
  - rewrite orb_true_iff, startswith_spec, IH; split.
    + intros [[post H] | (pre & post & H)].
      * exists [], post; assumption.
      * exists (c :: pre), post; simpl; congruence.
    + intros (pre & post & H); destruct pre as [|d pre]; simpl in H.
      * left; exists post; assumption.
      * right; exists pre, post; congruence.
Qed.

Lemma occurs_join (sep : str) (lines : list str) (l : str) :
  In l lines -> occurs l (join sep lines).
Proof.
  induction lines as [|x rest IH]; [contradiction|].
  intros [-> | Hin].
  - destruct rest as [|y rest'].
    + exists [], []; simpl; rewrite app_nil_r; reflexivity.
    + exists [], (sep ++ join sep (y :: rest')); reflexivity.
  - destruct rest as [|y rest']; [contradiction|].
    destruct (IH Hin) as (pre & post & H).
    exists (x ++ sep ++ pre), post.
    change (join sep (x :: y :: rest')) with (x ++ sep ++ join sep (y :: rest')).
    rewrite H, <- !app_assoc; reflexivity.
Qed.

Lemma occurs_suffix (p q s : str) : occurs (p ++ q) s -> occurs q s.
Proof.
  intros (pre & post & H); exists (pre ++ p), post.
  rewrite H, <- !app_assoc; reflexivity.
Qed.

Lemma join_app (sep : str) (xs ys : list str) :
  xs <> [] -> ys <> [] ->
  join sep (xs ++ ys) = join sep xs ++ sep ++ join sep ys.
Proof.
  intros Hx Hy; induction xs as [|x xs IH]; [congruence|].
  destruct xs as [|x' xs'].
  - destruct ys as [|y ys']; [congruence | reflexivity].
  - change (join sep ((x :: x' :: xs') ++ ys))
      with (x ++ sep ++ join sep ((x' :: xs') ++ ys)).
    rewrite IH by discriminate.
    change (join sep (x :: x' :: xs')) with (x ++ sep ++ join sep (x' :: xs')).
    rewrite <- !app_assoc; reflexivity.
Qed.

Lemma adjacent_cons (a b c : codepoint) (s : str) :
  adjacent a b s = true -> adjacent a b (c :: s) = true.
Proof.
  intros H; destruct s as [|d s]; [discriminate|].
  change (adjacent a b (c :: d :: s))
    with ((N.eqb c a && N.eqb d b) || adjacent a b (d :: s)).
  rewrite H; apply orb_true_r.
Qed.

Lemma occurs_adjacent (a b : codepoint) (p s : str) :
  occurs (a :: b :: p) s -> adjacent a b s = true.
Proof.
  intros (pre & post & ->); induction pre as [|c pre IH].
  - simpl; rewrite !N.eqb_refl; reflexivity.
  - apply adjacent_cons; exact IH.
Qed.

Lemma adjacent_app_false (a b : codepoint) (x t : str) :
  adjacent a b x = false -> adjacent a b t = false -> head_is b t = false ->
  adjacent a b (x ++ t) = false.
Proof.
  intros Hx Ht Hh; induction x as [|c x IH]; [exact Ht|].
  destruct x as [|d x'].
  - destruct t as [|e t']; [reflexivity|].
    change (adjacent a b ([c] ++ e :: t'))
      with ((N.eqb c a && N.eqb e b) || adjacent a b (e :: t')).
    simpl in Hh; rewrite Hh, Ht, andb_false_r; reflexivity.
  - change (adjacent a b (c :: d :: x'))
      with ((N.eqb c a && N.eqb d b) || adjacent a b (d :: x')) in Hx.
    apply orb_false_iff in Hx as [Hcd Hx'].
    change (adjacent a b ((c :: d :: x') ++ t))
      with ((N.eqb c a && N.eqb d b) || adjacent a b ((d :: x') ++ t)).
    rewrite Hcd, (IH Hx'); reflexivity.
Qed.

Lemma adjacent_join_false (b : codepoint) (lines : list str) :
  b <> 10%N ->
  Forall (fun l => adjacent 10%N b l = false /\ head_is b l = false) lines ->
  adjacent 10%N b (join nl lines) = false /\
  head_is b (join nl lines) = false.
Proof.
  intros Hb; induction 1 as [|x rest [Hx Hhx] _ IH]; [split; reflexivity|].
  destruct rest as [|y rest']; [split; assumption|].
  change (join nl (x :: y :: rest')) with (x ++ nl ++ join nl (y :: rest')).
  destruct IH as [IHa IHh].
  assert (Hnb : N.eqb 10%N b = false) by (apply N.eqb_neq; congruence).
  assert (Ht : adjacent 10%N b (nl ++ join nl (y :: rest')) = false).
  { destruct (join nl (y :: rest')) as [|e t'] eqn:E; [reflexivity|].
    change (adjacent 10%N b (nl ++ e :: t'))
      with ((N.eqb 10%N 10%N && N.eqb e b) || adjacent 10%N b (e :: t')).
    simpl in IHh; rewrite IHh, IHa, andb_false_r; reflexivity. }
  split.
  - apply adjacent_app_false; [assumption | exact Ht |].
    unfold nl; simpl; exact Hnb.
  - destruct x as [|c x']; [unfold nl; simpl; exact Hnb | exact Hhx].
Qed.

Lemma no_line_break_adjacent (b : codepoint) (p : str) :
  has_line_break p = false -> adjacent 10%N b p = false.
Proof.
  unfold has_line_break; induction p as [|c p IH]; [reflexivity|].
  cbn [existsb]; intros H; apply orb_false_iff in H as [Hc Hp].
  destruct p as [|d p']; [reflexivity|].
  change (adjacent 10%N b (c :: d :: p'))
    with ((N.eqb c 10%N && N.eqb d b) || adjacent 10%N b (d :: p')).
  rewrite (N.eqb_sym c 10%N), Hc, (IH Hp); reflexivity.
Qed.

Lemma head_is_In (b : codepoint) (l : str) (lines : list str) :
  head_is b l = true ->
  Forall (fun x => head_is b x = false) lines -> ~ In l lines.
Proof.
  intros Hl Hall Hin; rewrite Forall_forall in Hall.
  apply Hall in Hin; congruence.
Qed.

Lemma filter_none {A : Type} (f : A -> bool) (l : list A) :
  Forall (fun x => f x = false) l -> filter f l = [].
Proof.
  induction 1 as [|x l Hx _ IH]; simpl; [reflexivity|].
  rewrite Hx; exact IH.
Qed.

Lemma filter_all {A : Type} (f : A -> bool) (l : list A) :
  Forall (fun x => f x = true) l -> filter f l = l.
Proof.
  induction 1 as [|x l Hx _ IH]; simpl; [reflexivity|].
  rewrite Hx, IH; reflexivity.
Qed.

Lemma fold_left_append {A : Type} (g : A -> str) (l : list A) (r : list str) :
  fold_left (fun response x => response ++ [g x]) l r = r ++ map g l.
Proof.
  revert r; induction l as [|x l IH]; intros r; simpl.
  - rewrite app_nil_r; reflexivity.
  - rewrite IH, <- app_assoc; reflexivity.
Qed.

Lemma dict_get_In {V : Type} (k : str) (d : dict V) (v : V) :
  dict_get k d = Some v -> In v (map snd d).
Proof.
  induction d as [|[k' v'] d IH]; simpl; [discriminate|].
  destruct (str_eqb k k').
  - intros H; inversion H; left; reflexivity.
  - intros H; right; apply IH; assumption.
Qed.

(** The decoder on one-, two-, three- and four-byte sequences. *)
Example py_decodes : py "a°•🚨" = [97; 176; 8226; 128680]%N.
Proof. reflexivity. Qed.

Lemma py_bullet_prefix (p : str) : py "• " ++ p = 8226%N :: 32%N :: p.
Proof. reflexivity. Qed.

(** ** The sanitizer: length bounds *)

Lemma sanitize_unfold (U : Unicode) (symptom : str) :
  sanitize_symptom_input U symptom =
    if length (cleaned U symptom) <? 3
    then Raise (ValidationError
                  (py "Symptom description must be at least 3 characters"))
    else if 500 <? length (cleaned U symptom)
    then Raise (ValidationError
                  (py "Symptom description must be less than 500 characters"))
    else Ok (lower U (cleaned U symptom)).
Proof. reflexivity. Qed.

Lemma sanitize_ok (U : Unicode) (symptom : str) :
  3 <= length (cleaned U symptom) <= 500 ->
  sanitize_symptom_input U symptom = Ok (lower U (cleaned U symptom)).
Proof.
  intros [H3 H500]; rewrite sanitize_unfold.
  destruct (Nat.ltb_spec (length (cleaned U symptom)) 3); [lia|].
  destruct (Nat.ltb_spec 500 (length (cleaned U symptom))); [lia|].
  reflexivity.
Qed.

Lemma sanitize_ok_inv (U : Unicode) (symptom y : str) :
  sanitize_symptom_input U symptom = Ok y ->
  y = lower U (cleaned U symptom) /\ 3 <= length (cleaned U symptom) <= 500.
Proof.
  rewrite sanitize_unfold.
  destruct (Nat.ltb_spec (length (cleaned U symptom)) 3); [discriminate|].
  destruct (Nat.ltb_spec 500 (length (cleaned U symptom))); [discriminate|].
  intros H'; inversion H'; split; [reflexivity | lia].
Qed.

Lemma sanitize_raise_inv (U : Unicode) (symptom : str) (e : exn) :
  sanitize_symptom_input U symptom = Raise e ->
  length (cleaned U symptom) < 3 \/ 500 < length (cleaned U symptom).
Proof.
  rewrite sanitize_unfold.
  destruct (Nat.ltb_spec (length (cleaned U symptom)) 3); [tauto|].
  destruct (Nat.ltb_spec 500 (length (cleaned U symptom))); [tauto|].
  discriminate.
Qed.

Section SanitizerLengths.
Variable U : Unicode.

Lemma lstrip_length (s : str) : length (lstrip U s) <= length s.
Proof.
  induction s as [|c s IH]; simpl; [lia|].
  destruct (isspace U c); simpl; lia.
Qed.

Lemma rstrip_length (s : str) : length (rstrip U s) <= length s.
Proof.
  unfold rstrip; rewrite length_rev.
  rewrite <- (length_rev s); apply lstrip_length.
Qed.

Lemma collapse_from_length (b : bool) (s : str) :
  length (collapse_from U b s) <= length s.
Proof.
  revert b; induction s as [|c s IH]; intros b; simpl; [lia|].
  destruct (isspace U c); [destruct b|]; simpl;
    try (specialize (IH true); lia); specialize (IH false); lia.
Qed.

(** Cleaning never lengthens the text. *)
Lemma cleaned_length_le (symptom : str) :
  length (cleaned U symptom) <= length symptom.
Proof.
  unfold cleaned, remove_harmful, collapse_whitespace, strip; cbv zeta.
  eapply Nat.le_trans; [apply filter_length_le|].
  eapply Nat.le_trans; [apply collapse_from_length|].
  eapply Nat.le_trans; [apply rstrip_length | apply lstrip_length].
Qed.

(** The direction of the stated bound that does hold: a text that is
    rejected has a cleaned form shorter than 3 characters or a raw form
    longer than 500 characters. *)
Lemma sanitize_raise_raw_length (symptom : str) (e : exn) :
  sanitize_symptom_input U symptom = Raise e ->
  length (cleaned U symptom) < 3 \/ 500 < length symptom.
Proof.
  intros H; apply sanitize_raise_inv in H as [H | H]; [left; exact H|].
  right; pose proof (cleaned_length_le symptom); lia.
Qed.

(** A raw text shorter than 3 characters is always rejected. *)
Lemma sanitize_rejects_short_raw (symptom : str) :
  length symptom < 3 -> raises (sanitize_symptom_input U symptom).
Proof.
  intros H; pose proof (cleaned_length_le symptom) as Hle.
  rewrite sanitize_unfold; unfold raises.
  destruct (Nat.ltb_spec (length (cleaned U symptom)) 3); [|lia].
  eexists; reflexivity.
Qed.

End SanitizerLengths.

(** C3 (as the code has it). [sanitize] raises [ValidationError] exactly
    when the cleaned text is shorter than 3 characters or longer than 500
    characters: both bounds are tested on the cleaned text, the length of the
    raw input is never looked at.  Cleaning never lengthens the text, so a
    rejected input has a cleaned text shorter than 3 or a raw text longer
    than 500 characters, but not the other way round. *)
Theorem sanitize_raises_iff (U : Unicode) (symptom : str) :
  (raises (sanitize_symptom_input U symptom) <->
   length (cleaned U symptom) < 3 \/ 500 < length (cleaned U symptom)) /\
  length (cleaned U symptom) <= length symptom.
Proof.
  split; [|apply cleaned_length_le].
  rewrite sanitize_unfold; unfold raises.
  destruct (Nat.ltb_spec (length (cleaned U symptom)) 3) as [H3|H3].
  - split; [intros _; left; assumption | intros _; eexists; reflexivity].
  - destruct (Nat.ltb_spec 500 (length (cleaned U symptom))) as [H5|H5].
    + split; [intros _; right; assumption | intros _; eexists; reflexivity].
    + split; [intros [msg Hm]; discriminate | lia].
Qed.

(** C3 (as stated) fails on a raw text of 501 characters whose cleaned form
    is ["abc"]: it is longer than 500 characters and it is accepted. *)
Lemma sanitize_accepts_long_raw_input :
  500 < length long_padded /\
  sanitize_symptom_input latin1 long_padded = Ok (py "abc") /\
  ~ (raises (sanitize_symptom_input latin1 long_padded) <->
     length (cleaned latin1 long_padded) < 3 \/ 500 < length long_padded).
Proof.
  assert (Hlen : 500 < length long_padded)
    by (apply Nat.ltb_lt; vm_compute; reflexivity).
  assert (Hok : sanitize_symptom_input latin1 long_padded = Ok (py "abc"))
    by (vm_compute; reflexivity).
  split; [exact Hlen|]. split; [exact Hok|].
  intros [_ H]. destruct H as [msg Hm]; [right; exact Hlen|].
  rewrite Hok in Hm; discriminate.
Qed.

(** ** The sanitizer: whitespace *)

Section SanitizerWhitespace.
Variable U : Unicode.

Lemma has_whitespace_run_cons (c : codepoint) (t : str) :
  has_whitespace_run U (c :: t) =
    (isspace U c && starts_space U t) || has_whitespace_run U t.
Proof.
  destruct t as [|d t']; [simpl; rewrite andb_false_r; reflexivity|].
  reflexivity.
Qed.

Lemma collapse_from_true_start (s : str) :
  starts_space U (collapse_from U true s) = false.
Proof.
  induction s as [|c s IH]; [reflexivity|]; cbn [collapse_from].
  destruct (isspace U c) eqn:E; [exact IH | simpl; exact E].
Qed.

(** What [re.sub(r'\s+', ' ', s)] returns has no run of whitespace. *)
Lemma collapse_from_no_run (b : bool) (s : str) :
  has_whitespace_run U (collapse_from U b s) = false.
Proof.
  revert b; induction s as [|c s IH]; intros b; [reflexivity|].
  cbn [collapse_from]; destruct (isspace U c) eqn:E.
  - destruct b; [apply IH|].
    rewrite has_whitespace_run_cons, collapse_from_true_start, IH.
    rewrite andb_false_r; reflexivity.
  - rewrite has_whitespace_run_cons, E, IH; reflexivity.
Qed.

(** ... and every whitespace character in it is a space. *)
Lemma collapse_from_spaces (b : bool) (s : str) :
  Forall (fun c => isspace U c = true -> c = 32%N) (collapse_from U b s).
Proof.
  revert b; induction s as [|c s IH]; intros b; [constructor|].
  cbn [collapse_from]; destruct (isspace U c) eqn:E.
  - destruct b; [apply IH|]. constructor; [reflexivity | apply IH].
  - constructor; [congruence | apply IH].
Qed.

Lemma collapse_from_snoc (b : bool) (s : str) (c : codepoint) :
  isspace U c = false ->
  collapse_from U b (s ++ [c]) = collapse_from U b s ++ [c].
Proof.
  intros Hc; revert b; induction s as [|d s IH]; intros b.
  - simpl; rewrite Hc; reflexivity.
  - cbn [app collapse_from]; destruct (isspace U d); [destruct b|];
      rewrite IH; reflexivity.
Qed.

Lemma lstrip_start (s : str) : starts_space U (lstrip U s) = false.
Proof.
  induction s as [|c s IH]; [reflexivity|]; cbn [lstrip].
  destruct (isspace U c) eqn:E; [exact IH | simpl; exact E].
Qed.

Lemma lstrip_decomp (s : str) :
  exists pre, s = pre ++ lstrip U s /\
              Forall (fun c => isspace U c = true) pre.
Proof.
  induction s as [|c s (pre & Hs & Hpre)]; [exists []; split; constructor|].
  cbn [lstrip]; destruct (isspace U c) eqn:E.
  - exists (c :: pre); split; [simpl; congruence | constructor; assumption].
  - exists []; split; [reflexivity | constructor].
Qed.

Lemma rstrip_decomp (s : str) :
  exists post, s = rstrip U s ++ post /\
               Forall (fun c => isspace U c = true) post.
Proof.
  destruct (lstrip_decomp (rev s)) as (pre & Hs & Hpre).
  exists (rev pre); split; [|apply Forall_rev; exact Hpre].
  unfold rstrip; rewrite <- rev_app_distr, <- Hs, rev_involutive.
  reflexivity.
Qed.

Lemma rstrip_end (s : str) : ends_space U (rstrip U s) = false.
Proof.
  unfold ends_space, rstrip; rewrite rev_involutive; apply lstrip_start.
Qed.

Lemma rstrip_start (s : str) :
  starts_space U s = false -> starts_space U (rstrip U s) = false.
Proof.
  intros H; destruct (rstrip_decomp s) as (post & Hs & _).
  destruct (rstrip U s) as [|c r]; [reflexivity|].
  rewrite Hs in H; exact H.
Qed.

Lemma ends_space_snoc (s : str) (c : codepoint) :
  ends_space U (s ++ [c]) = isspace U c.
Proof.
  unfold ends_space; rewrite rev_app_distr; reflexivity.
Qed.

Lemma collapse_from_end (b : bool) (s : str) :
  ends_space U s = false -> ends_space U (collapse_from U b s) = false.
Proof.
  destruct (rev s) as [|c r] eqn:E.
  - apply (f_equal (@rev codepoint)) in E; rewrite rev_involutive in E.
    subst s; intros _; reflexivity.
  - apply (f_equal (@rev codepoint)) in E; rewrite rev_involutive in E.
    simpl in E; subst s; rewrite ends_space_snoc; intros Hc.
    rewrite collapse_from_snoc by exact Hc.
    rewrite ends_space_snoc; exact Hc.
Qed.

Lemma collapse_from_false_start (s : str) :
  starts_space U s = false ->
  starts_space U (collapse_from U false s) = false.
Proof.
  destruct s as [|c s]; [reflexivity|]; simpl; intros E; rewrite E.
  simpl; exact E.
Qed.

(** Stripping and collapsing do normalize the whitespace: the text is
    normalized when the character removal starts. *)
Lemma collapse_strip_normalized (symptom : str) :
  normalized U (collapse_whitespace U (strip U symptom)) = true.
Proof.
  unfold normalized, collapse_whitespace.
  rewrite collapse_from_no_run.
  rewrite collapse_from_false_start
    by (unfold strip; apply rstrip_start, lstrip_start).
  rewrite collapse_from_end by (unfold strip; apply rstrip_end).
  reflexivity.
Qed.

(** So the cleaned text is normalized whenever the removal removes
    nothing. *)
Lemma cleaned_normalized_when_nothing_removed (symptom : str) :
  forallb (kept U) (collapse_whitespace U (strip U symptom)) = true ->
  cleaned U symptom = collapse_whitespace U (strip U symptom) /\
  normalized U (cleaned U symptom) = true.
Proof.
  intros H.
  assert (E : cleaned U symptom = collapse_whitespace U (strip U symptom)).
  { unfold cleaned, remove_harmful; cbv zeta.
    apply filter_all, Forall_forall; rewrite forallb_forall in H; exact H. }
  split; [exact E | rewrite E; apply collapse_strip_normalized].
Qed.

Lemma lstrip_fixed (s : str) : starts_space U s = false -> lstrip U s = s.
Proof.
  destruct s as [|c s]; [reflexivity|]; simpl; intros E; rewrite E.
  reflexivity.
Qed.

Lemma strip_fixed (s : str) :
  starts_space U s = false -> ends_space U s = false -> strip U s = s.
Proof.
  intros Hs He; unfold strip, rstrip; rewrite (lstrip_fixed _ Hs).
  unfold ends_space in He; rewrite (lstrip_fixed _ He).
  apply rev_involutive.
Qed.

Lemma collapse_from_fixed (b : bool) (s : str) :
  has_whitespace_run U s = false ->
  Forall (fun c => isspace U c = true -> c = 32%N) s ->
  (b = true -> starts_space U s = false) ->
  collapse_from U b s = s.
Proof.
  intros Hrun Hsp; revert b Hrun.
  induction Hsp as [|c s Hc _ IH]; intros b Hrun Hb; [reflexivity|].
  rewrite has_whitespace_run_cons in Hrun.
  apply orb_false_iff in Hrun as [Hcs Hrun].
  cbn [collapse_from]; destruct (isspace U c) eqn:E.
  - destruct b; [specialize (Hb eq_refl); simpl in Hb; congruence|].
    rewrite (Hc eq_refl), IH; [reflexivity | exact Hrun |].
    intros _; simpl in Hcs; exact Hcs.
  - rewrite IH; [reflexivity | exact Hrun | discriminate].
Qed.

End SanitizerWhitespace.

(** ** The sanitizer on the Latin-1 database *)

Lemma latin1_block_forall (P : codepoint -> bool) :
  forallb P latin1_block = true ->
  forall c, (c < 256)%N -> P c = true.
Proof.
  intros H c Hc; rewrite forallb_forall in H; apply H.
  unfold latin1_block; rewrite <- (N2Nat.id c); apply in_map, in_seq; lia.
Qed.

Lemma latin1_lower_char_high (c : codepoint) :
  (256 <= c)%N -> latin1_lower_char c = c.
Proof.
  intros Hc; unfold latin1_lower_char, in_range.
  destruct (N.leb_spec c 90); [lia|].
  destruct (N.leb_spec c 214); [lia|].
  destruct (N.leb_spec c 222); [lia|].
  rewrite !andb_false_r; reflexivity.
Qed.

Ltac by_latin1_block c :=
  destruct (N.lt_ge_cases c 256) as [Hlo | Hhi];
  [ revert c Hlo; apply latin1_block_forall; vm_compute; reflexivity
  | rewrite ?(latin1_lower_char_high Hhi) ].

Lemma latin1_lower_char_idem (c : codepoint) :
  N.eqb (latin1_lower_char (latin1_lower_char c)) (latin1_lower_char c)
  = true.
Proof. by_latin1_block c; apply N.eqb_refl. Qed.

Lemma latin1_lower_char_space (c : codepoint) :
  Bool.eqb (unicode_isspace (latin1_lower_char c)) (unicode_isspace c) = true.
Proof. by_latin1_block c; apply eqb_reflx. Qed.

Lemma latin1_lower_char_kept (c : codepoint) :
  implb (kept latin1 c) (kept latin1 (latin1_lower_char c)) = true.
Proof. by_latin1_block c; destruct (kept latin1 c); reflexivity. Qed.

Lemma latin1_lower_space (c : codepoint) :
  isspace latin1 (latin1_lower_char c) = isspace latin1 c.
Proof. apply eqb_prop, latin1_lower_char_space. Qed.

Lemma latin1_lower_starts_space (s : str) :
  starts_space latin1 (lower latin1 s) = starts_space latin1 s.
Proof.
  destruct s as [|c s]; [reflexivity|]; apply latin1_lower_space.
Qed.

Lemma latin1_lower_ends_space (s : str) :
  ends_space latin1 (lower latin1 s) = ends_space latin1 s.
Proof.
  unfold ends_space; cbn [lower latin1]; rewrite <- map_rev.
  apply latin1_lower_starts_space.
Qed.

Lemma latin1_lower_whitespace_run (s : str) :
  has_whitespace_run latin1 (lower latin1 s) = has_whitespace_run latin1 s.
Proof.
  induction s as [|c s IH]; [reflexivity|].
  change (lower latin1 (c :: s))
    with (latin1_lower_char c :: lower latin1 s).
  rewrite !has_whitespace_run_cons, IH, latin1_lower_starts_space.
  rewrite latin1_lower_space; reflexivity.
Qed.

Lemma latin1_lower_normalized (s : str) :
  normalized latin1 (lower latin1 s) = normalized latin1 s.
Proof.
  unfold normalized.
  rewrite latin1_lower_whitespace_run, latin1_lower_starts_space,
    latin1_lower_ends_space; reflexivity.
Qed.

Lemma latin1_lower_idem (s : str) :
  lower latin1 (lower latin1 s) = lower latin1 s.
Proof.
  cbn [lower latin1]; rewrite map_map; apply map_ext; intros c.
  apply N.eqb_eq, latin1_lower_char_idem.
Qed.

Lemma latin1_lower_kept (s : str) :
  Forall (fun c => kept latin1 c = true) s ->
  Forall (fun c => kept latin1 c = true) (lower latin1 s).
Proof.
  intros H; cbn [lower latin1]; apply Forall_map.
  eapply Forall_impl; [|exact H]; intros c Hc.
  pose proof (latin1_lower_char_kept c) as Hk.
  rewrite Hc in Hk; exact Hk.
Qed.

(** X8. What does hold of the output, on the Latin-1 database: it is in
    lower case and holds only word characters, whitespace and [-.,!?]. *)
Lemma sanitize_output_lower_and_kept (symptom y : str) :
  sanitize_symptom_input latin1 symptom = Ok y ->
  lower latin1 y = y /\ Forall (fun c => kept latin1 c = true) y.
Proof.
  intros H; apply sanitize_ok_inv in H as [-> _].
  split; [apply latin1_lower_idem|].
  apply latin1_lower_kept; unfold cleaned, remove_harmful; cbv zeta.
  apply Forall_forall; intros c Hc; apply filter_In in Hc; tauto.
Qed.

(** On every text from which the removal step removes nothing, the output
    is normalized and sanitizing it again returns it unchanged. *)
Lemma sanitize_when_nothing_removed (symptom y : str) :
  forallb (kept latin1) (collapse_whitespace latin1 (strip latin1 symptom))
    = true ->
  sanitize_symptom_input latin1 symptom = Ok y ->
  normalized latin1 y = true /\ sanitize_symptom_input latin1 y = Ok y.
Proof.
  intros Hkept Hs.
  destruct (cleaned_normalized_when_nothing_removed latin1 symptom Hkept)
    as [Hz Hnorm].
  apply sanitize_ok_inv in Hs as [-> Hlen].
  set (z := cleaned latin1 symptom) in *.
  assert (Hny : normalized latin1 (lower latin1 z) = true)
    by (rewrite latin1_lower_normalized; exact Hnorm).
  split; [exact Hny|].
  unfold normalized in Hny; rewrite !andb_true_iff, !negb_true_iff in Hny.
  destruct Hny as [[Hrun Hst] Hen].
  assert (Hsp : Forall (fun c => isspace latin1 c = true -> c = 32%N)
                  (lower latin1 z)).
  { cbn [lower latin1]; apply Forall_map.
    pose proof (collapse_from_spaces latin1 false (strip latin1 symptom))
      as Hc.
    fold (collapse_whitespace latin1 (strip latin1 symptom)) in Hc.
    rewrite <- Hz in Hc.
    eapply Forall_impl; [|exact Hc]; intros c Hc' Hl.
    change (unicode_isspace (latin1_lower_char c) = true) in Hl.
    change (isspace latin1 (latin1_lower_char c) = true) in Hl.
    rewrite latin1_lower_space in Hl; rewrite (Hc' Hl); reflexivity. }
  assert (Hk : Forall (fun c => kept latin1 c = true) (lower latin1 z)).
  { apply latin1_lower_kept; unfold z, cleaned, remove_harmful; cbv zeta.
    apply Forall_forall; intros c Hc; apply filter_In in Hc; tauto. }
  assert (Hcl : cleaned latin1 (lower latin1 z) = lower latin1 z).
  { unfold cleaned, remove_harmful, collapse_whitespace; cbv zeta.
    rewrite (strip_fixed _ _ Hst Hen).
    rewrite (collapse_from_fixed _ (b := false) Hrun Hsp) by discriminate.
    apply filter_all; exact Hk. }
  rewrite sanitize_ok; rewrite Hcl.
  - rewrite latin1_lower_idem; reflexivity.
  - cbn [lower latin1]; rewrite length_map; exact Hlen.
Qed.

Lemma kept_preserved_by_cleaning (s : str) :
  Forall (fun c => kept latin1 c = true) s ->
  forallb (kept latin1) (collapse_whitespace latin1 (strip latin1 s)) = true.
Proof.
  intros H; apply forallb_forall, Forall_forall.
  assert (Hl : forall t, Forall (fun c => kept latin1 c = true) t ->
                 Forall (fun c => kept latin1 c = true) (lstrip latin1 t)).
  { induction 1 as [|c t Hc Ht IH]; [constructor|]; cbn [lstrip].
    destruct (isspace latin1 c); [exact IH | constructor; assumption]. }
  assert (Hst : Forall (fun c => kept latin1 c = true) (strip latin1 s))
    by (unfold strip, rstrip; apply Forall_rev, Hl, Forall_rev, Hl, H).
  unfold collapse_whitespace; generalize false.
  induction Hst as [|c t Hc Ht IH]; intros b; [constructor|].
  cbn [collapse_from]; destruct (isspace latin1 c); [destruct b|].
  - apply IH.
  - constructor; [reflexivity | apply IH].
  - constructor; [exact Hc | apply IH].
Qed.

(** X9. On a text made of allowed characters only, the sanitizer is
    idempotent and its output is normalized. *)
Lemma sanitize_idempotent_on_allowed_text (symptom y : str) :
  Forall (fun c => kept latin1 c = true) symptom ->
  sanitize_symptom_input latin1 symptom = Ok y ->
  normalized latin1 y = true /\ sanitize_symptom_input latin1 y = Ok y.
Proof.
  intros H; apply sanitize_when_nothing_removed.
  apply kept_preserved_by_cleaning; exact H.
Qed.

(** C4. The whitespace part fails.  The sanitizer collapses whitespace
    before it removes the other characters, so a removed character that
    stood between two spaces leaves a run of two spaces, and one that stood
    first (or last) leaves a leading (or trailing) space: the output of a
    successful call need not be normalized. *)
Theorem sanitize_leaves_extra_whitespace :
  sanitize_symptom_input latin1 (py "a @ b") = Ok (py "a  b") /\
  has_whitespace_run latin1 (py "a  b") = true /\
  sanitize_symptom_input latin1 (py "@ abc") = Ok (py " abc") /\
  starts_space latin1 (py " abc") = true /\
  sanitize_symptom_input latin1 (py "abc @") = Ok (py "abc ") /\
  ends_space latin1 (py "abc ") = true /\
  ~ (forall x y, sanitize_symptom_input latin1 x = Ok y ->
                 normalized latin1 y = true).
Proof.
  assert (H : sanitize_symptom_input latin1 (py "a @ b") = Ok (py "a  b"))
    by (vm_compute; reflexivity).
  repeat split; try (vm_compute; reflexivity).
  intros Hall; specialize (Hall _ _ H).
  vm_compute in Hall; discriminate.
Qed.

(** C5. Idempotence fails.  Sanitizing the output of the sanitizer can
    change it, and can even be refused: the second pass collapses or strips
    the whitespace that the first pass left behind. *)
Theorem sanitize_twice_differs :
  sanitize_symptom_input latin1 (py "a @ b") = Ok (py "a  b") /\
  sanitize_symptom_input latin1 (py "a  b") = Ok (py "a b") /\
  py "a  b" <> py "a b" /\
  sanitize_symptom_input latin1 (py "ab @") = Ok (py "ab ") /\
  raises (sanitize_symptom_input latin1 (py "ab ")) /\
  ~ (forall x y, sanitize_symptom_input latin1 x = Ok y ->
                 sanitize_symptom_input latin1 y = Ok y).
Proof.
  assert (H : sanitize_symptom_input latin1 (py "a @ b") = Ok (py "a  b"))
    by (vm_compute; reflexivity).
  split; [exact H|].
  split; [vm_compute; reflexivity|].
  split; [vm_compute; discriminate|].
  split; [vm_compute; reflexivity|].
  split; [eexists; vm_compute; reflexivity|].
  intros Hall; specialize (Hall _ _ H).
  vm_compute in Hall; discriminate.
Qed.

(** ** The matcher *)

(** The flag recorded for a phrase found in the text. *)
Lemma scan_patterns_spec (cat sev d : str) (patterns : list str)
    (acc : list flag) :
  scan_patterns cat sev d patterns acc =
    acc ++ map (fun p => {| category := cat; pattern := p; severity := sev |})
             (filter (fun p => contains p d) patterns).
Proof.
  unfold scan_patterns; revert acc.
  induction patterns as [|p ps IH]; intros acc; cbn [fold_left filter].
  - rewrite app_nil_r; reflexivity.
  - rewrite IH; destruct (contains p d); [|reflexivity].
    rewrite <- app_assoc; reflexivity.
Qed.

Lemma scan_categories_spec (d : str) (cats : dict (list str))
    (acc : list flag) :
  fold_left
    (fun red_flags '(category, patterns) =>
       scan_patterns category (py "high") d patterns red_flags)
    cats acc =
  acc ++ flat_map
           (fun '(cat, patterns) =>
              map (fun p => {| category := cat; pattern := p;
                               severity := py "high" |})
                (filter (fun p => contains p d) patterns))
           cats.
Proof.
  revert acc; induction cats as [|[cat ps] cats IH]; intros acc;
    cbn [fold_left flat_map].
  - rewrite app_nil_r; reflexivity.
  - rewrite IH, scan_patterns_spec, <- app_assoc; reflexivity.
Qed.

(** The matcher never stops early: its result is, category after category
    and phrase after phrase, one flag for each phrase that occurs in the
    lower-cased text, followed by one flag for each generic phrase that
    occurs in it. *)
Lemma detect_red_flags_spec (U : Unicode) (description : str) :
  _detect_red_flags U description =
    flat_map
      (fun '(cat, patterns) =>
         map (fun p => {| category := cat; pattern := p;
                          severity := py "high" |})
           (filter (fun p => contains p (lower U description)) patterns))
      red_flag_categories
    ++ map (fun p => {| category := py "concerning"; pattern := p;
                        severity := py "medium" |})
         (filter (fun p => contains p (lower U description))
            concerning_patterns).
Proof.
  unfold _detect_red_flags; cbv zeta.
  rewrite scan_patterns_spec, scan_categories_spec; reflexivity.
Qed.

Lemma detect_red_flags_complete (U : Unicode) (description cat p : str)
    (patterns : list str) :
  In (cat, patterns) red_flag_categories -> In p patterns ->
  contains p (lower U description) = true ->
  In {| category := cat; pattern := p; severity := py "high" |}
    (_detect_red_flags U description).
Proof.
  intros Hcat Hp Hc; rewrite detect_red_flags_spec.
  apply in_or_app; left; apply in_flat_map.
  exists (cat, patterns); split; [assumption|].
  apply (in_map (fun q => {| category := cat; pattern := q;
                             severity := py "high" |})).
  apply filter_In; split; assumption.
Qed.

Lemma detect_red_flags_sound (U : Unicode) (description : str) (f : flag) :
  In f (_detect_red_flags U description) ->
  In (pattern f) catalogue_phrases /\
  contains (pattern f) (lower U description) = true.
Proof.
  rewrite detect_red_flags_spec; unfold catalogue_phrases.
  intros H; apply in_app_or in H as [H | H].
  - apply in_flat_map in H as ([cat ps] & Hcat & H).
    apply in_map_iff in H as (p & <- & Hp); apply filter_In in Hp as [Hp Hc].
    split; [|exact Hc].
    apply in_or_app; left; apply in_flat_map.
    exists (cat, ps); split; assumption.
  - apply in_map_iff in H as (p & <- & Hp); apply filter_In in Hp as [Hp Hc].
    split; [|exact Hc].
    apply in_or_app; right; exact Hp.
Qed.

Lemma detect_red_flags_no_line_break (U : Unicode) (description : str) :
  Forall (fun f => has_line_break (pattern f) = false)
    (_detect_red_flags U description).
Proof.
  apply Forall_forall; intros f Hf.
  apply detect_red_flags_sound in Hf as [Hin _].
  assert (H : forallb (fun p => negb (has_line_break p)) catalogue_phrases
              = true) by (vm_compute; reflexivity).
  rewrite forallb_forall in H; apply H in Hin.
  apply negb_true_iff in Hin; exact Hin.
Qed.

(** ** The urgency classifier *)

Lemma assess_urgency_existsb_emergency (flags : list flag) :
  existsb (fun flag => str_in (category flag) emergency_categories) flags
    = true ->
  _assess_urgency flags = py "emergency".
Proof.
  intros Hex; unfold _assess_urgency.
  destruct flags as [|g rest]; [discriminate|].
  rewrite Hex; reflexivity.
Qed.

(** C1. A list of matches that holds at least one match of an
    emergency-eligible category (chest, breathing, consciousness, allergic)
    is classified ["emergency"], whatever else the list holds. *)
Theorem assess_urgency_emergency_dominates (flags : list flag) :
  (exists f, In f flags /\ In (category f) emergency_categories) ->
  _assess_urgency flags = py "emergency".
Proof.
  intros (f & Hin & Hcat).
  apply assess_urgency_existsb_emergency, existsb_exists.
  exists f; split; [assumption|].
  apply str_in_In; assumption.
Qed.

Lemma assess_urgency_emergency_dominates_witness :
  let flags := [
    {| category := py "headache"; pattern := py "severe headache"; severity := py "high" |};
    {| category := py "fever"; pattern := py "high fever"; severity := py "high" |};
    {| category := py "allergic"; pattern := py "anaphylaxis"; severity := py "high" |};
    {| category := py "concerning"; pattern := py "severe pain"; severity := py "medium" |};
    {| category := py "concerning"; pattern := py "worsening"; severity := py "medium" |}
  ] in
  (exists f, In f flags /\ In (category f) emergency_categories) /\
  _assess_urgency flags = py "emergency".
Proof.
  intros flags.
  assert (H : exists f, In f flags /\ In (category f) emergency_categories).
  { exists {| category := py "allergic"; pattern := py "anaphylaxis";
              severity := py "high" |}.
    split; [simpl; tauto | simpl; tauto]. }
  split; [exact H | exact (assess_urgency_emergency_dominates flags H)].
Defined.

(** C2. When no match has an emergency-eligible or urgent-eligible
    category, the urgency is decided by the number of matches: ["urgent"]
    for three or more, ["moderate"] for one or two, ["low"] for none. *)
Theorem assess_urgency_by_count (flags : list flag) :
  (forall f, In f flags ->
     ~ In (category f) emergency_categories /\
     ~ In (category f) urgent_categories) ->
  _assess_urgency flags =
    if 3 <=? length flags then py "urgent"
    else if 1 <=? length flags then py "moderate"
    else py "low".
Proof.
  intros H.
  assert (He : existsb
            (fun flag => str_in (category flag) emergency_categories) flags
          = false).
  { apply not_true_is_false; intros Hex; apply existsb_exists in Hex.
    destruct Hex as (f & Hin & Hc); apply str_in_In in Hc.
    exact (proj1 (H f Hin) Hc). }
  assert (Hu : existsb
            (fun flag => str_in (category flag) urgent_categories) flags
          = false).
  { apply not_true_is_false; intros Hex; apply existsb_exists in Hex.
    destruct Hex as (f & Hin & Hc); apply str_in_In in Hc.
    exact (proj2 (H f Hin) Hc). }
  unfold _assess_urgency; destruct flags as [|g rest]; [reflexivity|].
  rewrite He, Hu.
  destruct (3 <=? length (g :: rest)) eqn:E3; [reflexivity|].
  reflexivity.
Qed.

Lemma assess_urgency_by_count_witness :
  let c1 := {| category := py "concerning"; pattern := py "severe pain"; severity := py "medium" |} in
  let c2 := {| category := py "concerning"; pattern := py "sudden onset"; severity := py "medium" |} in
  let c3 := {| category := py "concerning"; pattern := py "getting worse"; severity := py "medium" |} in
  (forall f, In f [c1; c2; c3] ->
     ~ In (category f) emergency_categories /\
     ~ In (category f) urgent_categories) /\
  _assess_urgency [c1; c2; c3] = py "urgent" /\
  _assess_urgency [c1; c2] = py "moderate" /\
  _assess_urgency [c3] = py "moderate" /\
  _assess_urgency [] = py "low".
Proof.
  intros c1 c2 c3.
  assert (Hc : forall l f, In f l -> incl l [c1; c2; c3] ->
     ~ In (category f) emergency_categories /\
     ~ In (category f) urgent_categories).
  { intros l f Hin Hl; apply Hl in Hin.
    assert (E : category f = py "concerning")
      by (destruct Hin as [<-|[<-|[<-|[]]]]; reflexivity).
    rewrite E; split; apply str_in_false; reflexivity. }
  split; [intros f Hf; apply (Hc [c1; c2; c3] f Hf); apply incl_refl|].
  split; [apply (assess_urgency_by_count [c1; c2; c3]);
          intros f Hf; apply (Hc [c1; c2; c3] f Hf); apply incl_refl|].
  split; [apply (assess_urgency_by_count [c1; c2]);
          intros f Hf; apply (Hc [c1; c2] f Hf);
          intros x Hx; simpl in *; tauto|].
  split; [apply (assess_urgency_by_count [c3]);
          intros f Hf; apply (Hc [c3] f Hf);
          intros x Hx; simpl in *; tauto|].
  apply (assess_urgency_by_count []); intros f [].
Defined.

(** ** The response renderer *)

(** The rendered lines, section by section. *)
Lemma response_lines_sections (description : str) (flags : list flag)
    (urgency : str) :
  response_lines description flags urgency =
    banner_lines flags urgency ++ detected_symptoms flags
    ++ [nl ++ MEDICAL_DISCLAIMER]
    ++ (if str_in urgency [py "low"; py "moderate"]
        then self_care_tips else []).
Proof.
  unfold response_lines.
  change (let response := [] in
          if str_eqb urgency (py "emergency") then _ else _)
    with (banner_lines flags urgency).
  set (banner := banner_lines flags urgency).
  cbv zeta.
  destruct flags as [|f rest];
    destruct (str_in urgency [py "low"; py "moderate"]);
    rewrite ?fold_left_append; unfold detected_symptoms, self_care_tips;
    rewrite <- ?app_assoc, ?app_nil_r; reflexivity.
Qed.

Lemma append_emergency_advice_cases (flags : list flag) (r : list str) :
  append_emergency_advice flags r = r \/
  exists advice, In advice (map snd emergency_advice) /\
                 append_emergency_advice flags r = r ++ [advice].
Proof.
  induction flags as [|f rest IH]; [left; reflexivity|].
  cbn [append_emergency_advice].
  destruct (dict_get (category f) emergency_advice) as [advice|] eqn:E.
  - right; exists advice; split; [|reflexivity].
    apply (dict_get_In _ _ E).
  - exact IH.
Qed.

Lemma emergency_advice_plain (advice : str) :
  In advice (map snd emergency_advice) -> plain_line advice = true.
Proof.
  assert (H : forallb plain_line (map snd emergency_advice) = true)
    by (vm_compute; reflexivity).
  rewrite forallb_forall in H; apply H.
Qed.

Lemma banner_lines_plain (flags : list flag) (urgency : str) :
  Forall (fun l => plain_line l = true) (banner_lines flags urgency) /\
  2 <= length (banner_lines flags urgency) <= 3.
Proof.
  unfold banner_lines; cbv zeta.
  destruct (str_eqb urgency (py "emergency")).
  - destruct (append_emergency_advice_cases flags
                ([] ++ [py "🚨 MEDICAL EMERGENCY DETECTED 🚨"]
                 ++ [py "This appears to be a medical emergency. Call 911 or emergency services IMMEDIATELY."]))
      as [E | (advice & Hin & E)]; rewrite app_assoc in E; rewrite E.
    + split; [repeat constructor; vm_compute; reflexivity | simpl; lia].
    + split; [|simpl; lia].
      apply Forall_app; split.
      * repeat constructor; vm_compute; reflexivity.
      * constructor; [apply emergency_advice_plain; assumption | constructor].
  - destruct (str_eqb urgency (py "urgent"));
      [|destruct (str_eqb urgency (py "moderate"))];
      (split; [repeat constructor; vm_compute; reflexivity | simpl; lia]).
Qed.

Lemma plain_line_inv (l : str) :
  plain_line l = true ->
  is_bullet l = false /\ head_is 10%N l = false /\ head_is 71%N l = false /\
  adjacent 10%N 71%N l = false.
Proof.
  unfold plain_line; rewrite !andb_true_iff, !negb_true_iff; tauto.
Qed.

Lemma is_bullet_bullet (p : str) : is_bullet (py "• " ++ p) = true.
Proof. rewrite py_bullet_prefix; reflexivity. Qed.

Lemma filter_bullets_detected (flags : list flag) :
  filter is_bullet (detected_symptoms flags) =
    map (fun f => py "• " ++ pattern f) (firstn 3 flags).
Proof.
  unfold detected_symptoms; destruct flags as [|f rest]; [reflexivity|].
  change (filter is_bullet
            ((nl ++ py "Detected concerning symptoms:")
             :: map (fun f0 => py "• " ++ pattern f0) (firstn 3 (f :: rest))))
    with (filter is_bullet
            (map (fun f0 => py "• " ++ pattern f0) (firstn 3 (f :: rest)))).
  apply filter_all, Forall_forall; intros l Hl.
  apply in_map_iff in Hl as (g & <- & _); apply is_bullet_bullet.
Qed.

Lemma tips_due_iff (urgency : str) :
  str_in urgency [py "low"; py "moderate"] = true <->
  urgency = py "low" \/ urgency = py "moderate".
Proof.
  rewrite str_in_In; cbn [In]; intuition congruence.
Qed.

(** The heading of the advice section is no line of the earlier sections. *)
Lemma tips_heading_not_before (flags : list flag) (urgency : str) :
  ~ In (nl ++ py "General self-care tips:")
      (banner_lines flags urgency ++ detected_symptoms flags
       ++ [nl ++ MEDICAL_DISCLAIMER]).
Proof.
  rewrite !in_app_iff; intros [H | [H | H]].
  - revert H; apply head_is_In with (b := 10%N); [reflexivity|].
    destruct (banner_lines_plain flags urgency) as [Hp _].
    eapply Forall_impl; [|exact Hp].
    intros l Hl; apply plain_line_inv in Hl; tauto.
  - unfold detected_symptoms in H; destruct flags as [|f rest]; [exact H|].
    destruct H as [H | H].
    + apply str_eqb_eq in H; vm_compute in H; discriminate.
    + apply in_map_iff in H as (g & Hg & _).
      rewrite py_bullet_prefix in Hg; discriminate.
  - destruct H as [H | []].
    apply str_eqb_eq in H; vm_compute in H; discriminate.
Qed.

(** Without the advice section, [G] never follows a line feed in the
    rendered text, as long as no matched phrase holds a line feed. *)
Lemma rendered_without_tips (flags : list flag) (urgency : str) :
  Forall (fun f => has_line_break (pattern f) = false) flags ->
  adjacent 10%N 71%N
    (join nl (banner_lines flags urgency ++ detected_symptoms flags
              ++ [nl ++ MEDICAL_DISCLAIMER])) = false.
Proof.
  intros Hflags.
  apply adjacent_join_false; [discriminate|].
  apply Forall_app; split; [|apply Forall_app; split].
  - destruct (banner_lines_plain flags urgency) as [Hp _].
    eapply Forall_impl; [|exact Hp].
    intros l Hl; apply plain_line_inv in Hl; tauto.
  - unfold detected_symptoms; destruct flags as [|f rest]; [constructor|].
    constructor; [split; vm_compute; reflexivity|].
    apply Forall_forall; intros l Hl.
    apply in_map_iff in Hl as (g & <- & Hg).
    assert (Hg' : In g (f :: rest))
      by (rewrite <- (firstn_skipn 3 (f :: rest)); apply in_or_app; left;
          exact Hg).
    rewrite Forall_forall in Hflags; specialize (Hflags g Hg').
    rewrite py_bullet_prefix; split; [|reflexivity].
    change (adjacent 10%N 71%N (8226%N :: 32%N :: pattern g))
      with (false || adjacent 10%N 71%N (32%N :: pattern g)).
    destruct (pattern g) as [|c p'] eqn:E; [reflexivity|].
    change (adjacent 10%N 71%N (32%N :: c :: p'))
      with (false || adjacent 10%N 71%N (c :: p')).
    apply no_line_break_adjacent; exact Hflags.
  - constructor; [split; vm_compute; reflexivity | constructor].
Qed.

Lemma generate_response_disclaimer (description : str) (flags : list flag)
    (urgency : str) :
  occurs MEDICAL_DISCLAIMER (_generate_response description flags urgency).
Proof.
  apply occurs_suffix with (p := nl); unfold _generate_response.
  apply occurs_join; rewrite response_lines_sections, !in_app_iff.
  right; right; left; left; reflexivity.
Qed.

Lemma generate_response_tips (description : str) (flags : list flag)
    (urgency : str) :
  Forall (fun f => has_line_break (pattern f) = false) flags ->
  (contains (join nl self_care_tips)
     (_generate_response description flags urgency) = true <->
   urgency = py "low" \/ urgency = py "moderate").
Proof.
  intros Hflags; rewrite <- tips_due_iff; unfold _generate_response.
  rewrite response_lines_sections.
  destruct (str_in urgency [py "low"; py "moderate"]).
  - split; [reflexivity|]; intros _; apply contains_spec.
    rewrite !app_assoc, join_app;
      [|destruct (banner_lines flags urgency ++ detected_symptoms flags);
        discriminate | discriminate].
    eexists _, []; rewrite app_nil_r, app_assoc; reflexivity.
  - split; [|discriminate]; intros H; exfalso.
    apply contains_spec in H.
    rewrite !app_nil_r in H.
    apply (@occurs_adjacent 10%N 71%N
             (tl (tl (join nl self_care_tips)))) in H.
    rewrite (rendered_without_tips urgency Hflags) in H; discriminate.
Qed.





(** ** The analysis *)

Lemma analyze_unfold (U : Unicode) (now : datetime) (x : str) :
  analyze_symptoms U now x =
    match sanitize_symptom_input U x with
    | Ok clean =>
        let flags := _detect_red_flags U clean in
        let urgency := _assess_urgency flags in
        Ok (Analysis {|
          original_input := x;
          cleaned_input := clean;
          red_flags := flags;
          urgency_level := urgency;
          response := _generate_response clean flags urgency;
          timestamp := now;
          requires_medical_attention :=
            str_in urgency [py "emergency"; py "urgent"]
        |})
    | Raise e =>
        Ok (Failure {|
          error := py "Error analyzing symptoms: " ++ exn_str e;
          failure_response :=
            py "Unable to analyze symptoms. Please consult a healthcare professional.";
          failure_requires_medical_attention := true
        |})
    end.
Proof.
  unfold analyze_symptoms, try_except, bind.
  destruct (sanitize_symptom_input U x); reflexivity.
Qed.

(** C6 (as the code has it). [analyze_symptoms] never raises.  When the
    sanitizer raises [ValidationError] (cleaned text shorter than 3 or longer
    than 500 characters) the [except] branch catches it and returns the error
    dictionary: the message of the exception under ["error"], the fixed
    ["Unable to analyze symptoms..."] response and
    [requires_medical_attention = True].  Otherwise the full analysis of the
    sanitized text is returned. *)
Theorem analyze_never_raises (U : Unicode) (now : datetime) (x : str) :
  exists r, analyze_symptoms U now x = Ok r /\
    match r with
    | Failure f =>
        (length (cleaned U x) < 3 \/ 500 < length (cleaned U x)) /\
        (exists msg,
           sanitize_symptom_input U x = Raise (ValidationError msg) /\
           error f = py "Error analyzing symptoms: " ++ msg) /\
        failure_response f =
          py "Unable to analyze symptoms. Please consult a healthcare professional." /\
        failure_requires_medical_attention f = true
    | Analysis a =>
        3 <= length (cleaned U x) <= 500 /\
        sanitize_symptom_input U x = Ok (cleaned_input a) /\
        original_input a = x /\
        red_flags a = _detect_red_flags U (cleaned_input a) /\
        urgency_level a = _assess_urgency (red_flags a) /\
        response a =
          _generate_response (cleaned_input a) (red_flags a) (urgency_level a)
    end.
Proof.
  rewrite analyze_unfold.
  destruct (sanitize_symptom_input U x) as [clean|e] eqn:E.
  - eexists; split; [reflexivity|]; simpl.
    apply sanitize_ok_inv in E as [-> Hlen].
    repeat split; try reflexivity; lia.
  - eexists; split; [reflexivity|]; simpl.
    split; [apply (sanitize_raise_inv _ _ E)|].
    split; [destruct e as [msg]; exists msg; split; reflexivity|].
    split; reflexivity.
Qed.

(** C6 (as stated) fails on the input ["ok"]: its cleaned text has 2
    characters, and the analysis returns the error dictionary instead of
    raising. *)
Lemma analyze_short_input_returns :
  length (cleaned latin1 (py "ok")) < 3 /\
  analyze_symptoms latin1 0%N (py "ok") =
    Ok (Failure {|
      error := py "Error analyzing symptoms: Symptom description must be at least 3 characters";
      failure_response :=
        py "Unable to analyze symptoms. Please consult a healthcare professional.";
      failure_requires_medical_attention := true
    |}) /\
  ~ (raises (analyze_symptoms latin1 0%N (py "ok")) <->
     length (cleaned latin1 (py "ok")) < 3 \/ 500 < length (py "ok")).
Proof.
  assert (Hlen : length (cleaned latin1 (py "ok")) < 3)
    by (apply Nat.ltb_lt; vm_compute; reflexivity).
  split; [exact Hlen|].
  split; [vm_compute; reflexivity|].
  intros [_ H]. destruct H as [msg Hm]; [left; exact Hlen|].
  vm_compute in Hm; discriminate.
Qed.

(** C7. In every analysis that went through, the flag
    [requires_medical_attention] is true exactly when the urgency level is
    ["urgent"] or ["emergency"]. *)
Theorem requires_attention_iff_urgent_or_emergency
    (U : Unicode) (now : datetime) (x : str) (a : analysis) :
  analyze_symptoms U now x = Ok (Analysis a) ->
  (requires_medical_attention a = true <->
   urgency_level a = py "urgent" \/ urgency_level a = py "emergency").
Proof.
  rewrite analyze_unfold.
  destruct (sanitize_symptom_input U x) as [clean|e]; [|discriminate].
  intros H; inversion H; subst; clear H.
  cbn [requires_medical_attention urgency_level].
  rewrite !orb_true_iff, !str_eqb_eq; intuition discriminate.
Qed.

Lemma requires_attention_iff_urgent_or_emergency_witness :
  exists a,
    analyze_symptoms latin1 0%N (py "I have chest pain") = Ok (Analysis a) /\
    (requires_medical_attention a = true <->
     urgency_level a = py "urgent" \/ urgency_level a = py "emergency").
Proof.
  eexists; split; [vm_compute; reflexivity|].
  apply (requires_attention_iff_urgent_or_emergency latin1 0%N
           (py "I have chest pain")).
  vm_compute; reflexivity.
Defined.

(** X14. A text whose sanitized form holds a phrase of an
    emergency-eligible category is analysed as an emergency. *)
Lemma analyze_emergency_phrase (U : Unicode) (now : datetime)
    (x clean cat p : str) (patterns : list str) :
  sanitize_symptom_input U x = Ok clean ->
  In (cat, patterns) red_flag_categories -> In cat emergency_categories ->
  In p patterns -> contains p (lower U clean) = true ->
  exists a, analyze_symptoms U now x = Ok (Analysis a) /\
            urgency_level a = py "emergency" /\
            requires_medical_attention a = true.
Proof.
  intros Hs Hcat Hem Hp Hc.
  rewrite analyze_unfold, Hs; cbv zeta.
  assert (Hu : _assess_urgency (_detect_red_flags U clean) = py "emergency").
  { apply assess_urgency_existsb_emergency, existsb_exists.
    exists {| category := cat; pattern := p; severity := py "high" |}.
    split; [|apply str_in_In; exact Hem].
    apply detect_red_flags_complete with (patterns := patterns); assumption. }
  eexists; split; [reflexivity|].
  cbn [urgency_level requires_medical_attention]; rewrite Hu.
  split; reflexivity.
Qed.

(** X15. In an analysis that went through, the response holds the
    disclaimer, and it holds the text of the self-care tips exactly when the
    urgency is ["low"] or ["moderate"]. *)
Lemma analysis_response_tips (U : Unicode) (now : datetime) (x : str)
    (a : analysis) :
  analyze_symptoms U now x = Ok (Analysis a) ->
  contains MEDICAL_DISCLAIMER (response a) = true /\
  (contains (join nl self_care_tips) (response a) = true <->
   urgency_level a = py "low" \/ urgency_level a = py "moderate").
Proof.
  rewrite analyze_unfold.
  destruct (sanitize_symptom_input U x) as [clean|e]; [|discriminate].
  intros H; inversion H; subst; clear H.
  cbn [response urgency_level]; split.
  - apply contains_spec, generate_response_disclaimer.
  - apply generate_response_tips, detect_red_flags_no_line_break.
Qed.

(** C8. On ["I have a mild headache"] no phrase of the catalogue occurs in
    the sanitized text (["severe headache"] and ["sudden severe headache"]
    included), the matcher returns no match and the urgency is ["low"]. *)
Theorem mild_headache_is_low (now : datetime) :
  let clean := py "i have a mild headache" in
  sanitize_symptom_input latin1 (py "I have a mild headache") = Ok clean /\
  In (py "severe headache") catalogue_phrases /\
  In (py "sudden severe headache") catalogue_phrases /\
  Forall (fun phrase => contains phrase clean = false) catalogue_phrases /\
  _detect_red_flags latin1 clean = [] /\
  exists a,
    analyze_symptoms latin1 now (py "I have a mild headache") =
      Ok (Analysis a) /\
    red_flags a = [] /\
    urgency_level a = py "low" /\
    requires_medical_attention a = false.
Proof.
  intros clean.
  split; [vm_compute; reflexivity|].
  split; [vm_compute; tauto|].
  split; [vm_compute; tauto|].
  split; [apply Forall_forall; intros phrase Hin;
          assert (Hall : forallb (fun p => negb (contains p clean))
                           catalogue_phrases = true)
            by (vm_compute; reflexivity);
          rewrite forallb_forall in Hall; apply Hall in Hin;
          apply negb_true_iff in Hin; exact Hin|].
  split; [vm_compute; reflexivity|].
  eexists; split; [vm_compute; reflexivity|].
  repeat split.
Qed.

(** C10. [emergency_advice] has an entry for each of the nine named
    categories, and the emergency banner takes the entry of the first match
    that has one.  On ["severe headache and fainting"] the matches are
    ["severe headache"] (category headache, urgent-eligible, scanned first)
    and ["fainting"] (category consciousness, emergency-eligible): the
    urgency is ["emergency"] because of the second, and the instruction in
    the response is the one for headache. *)
Theorem emergency_instruction_of_urgent_category (now : datetime) :
  Forall (fun c => dict_get c emergency_advice <> None)
    (emergency_categories ++ urgent_categories) /\
  length (emergency_categories ++ urgent_categories) = 9 /\
  exists a,
    analyze_symptoms latin1 now (py "severe headache and fainting") =
      Ok (Analysis a) /\
    map (fun f => (category f, pattern f)) (red_flags a) =
      [(py "headache", py "severe headache");
       (py "consciousness", py "fainting")] /\
    urgency_level a = py "emergency" /\
    In (py "headache") urgent_categories /\
    ~ In (py "headache") emergency_categories /\
    In (py "consciousness") emergency_categories /\
    nth_error
      (response_lines (cleaned_input a) (red_flags a) (urgency_level a)) 2 =
      dict_get (py "headache") emergency_advice /\
    contains
      (py "🚨 URGENT: Sudden severe headache may indicate stroke or aneurysm. Seek emergency care.")
      (response a) = true /\
    contains
      (py "🚨 URGENT: Loss of consciousness requires emergency medical care.")
      (response a) = false.
Proof.
  split; [repeat constructor; vm_compute; discriminate|].
  split; [reflexivity|].
  eexists; split; [vm_compute; reflexivity|].
  split; [vm_compute; reflexivity|].
  split; [vm_compute; reflexivity|].
  split; [vm_compute; tauto|].
  split; [apply str_in_false; vm_compute; reflexivity|].
  split; [vm_compute; tauto|].
  split; [vm_compute; reflexivity|].
  split; vm_compute; reflexivity.
Qed.

(** * Further properties *)

(** ** The matcher and the classifier *)

Lemma filter_flat_map_snd {K : Type} (f : str -> bool)
    (cats : list (K * list str)) :
  filter f (flat_map snd cats) =
    flat_map (fun '(_, patterns) => filter f patterns) cats.
Proof.
  induction cats as [|[k ps] cats IH]; [reflexivity|].
  cbn [flat_map snd]; rewrite filter_app, IH; reflexivity.
Qed.

(** X1. The phrases reported by the matcher are exactly the phrases of the
    catalogue that occur in the lower-cased text, each once, in the order of
    the catalogue: no hit ends the scan and nothing is reordered. *)
Theorem detected_patterns_are_catalogue_hits (U : Unicode) (description : str) :
  map pattern (_detect_red_flags U description) =
    filter (fun p => contains p (lower U description)) catalogue_phrases.
Proof.
  rewrite detect_red_flags_spec; unfold catalogue_phrases.
  rewrite map_app, filter_app, map_map, filter_flat_map_snd.
  cbn [pattern]; rewrite map_id; f_equal.
  induction red_flag_categories as [|[cat ps] cats IH]; [reflexivity|].
  cbn [flat_map]; rewrite map_app, IH, map_map; cbn [pattern].
  rewrite map_id; reflexivity.
Qed.

(** X2. Every flag of the matcher is well formed: either its severity is
    ["high"], its category is one of the nine named categories and its
    pattern is a phrase of that category, or its severity is ["medium"], its
    category is ["concerning"] and its pattern is a generic phrase; in both
    cases the pattern occurs in the lower-cased text. *)
Theorem detected_flags_well_formed (U : Unicode) (description : str) :
  Forall
    (fun f =>
       contains (pattern f) (lower U description) = true /\
       ((severity f = py "high" /\
         In (category f) (emergency_categories ++ urgent_categories) /\
         exists patterns, In (category f, patterns) red_flag_categories /\
                          In (pattern f) patterns) \/
        (severity f = py "medium" /\ category f = py "concerning" /\
         In (pattern f) concerning_patterns)))
    (_detect_red_flags U description).
Proof.
  apply Forall_forall; intros f Hf.
  rewrite detect_red_flags_spec in Hf; apply in_app_or in Hf as [Hf | Hf].
  - apply in_flat_map in Hf as ([cat ps] & Hcat & Hf).
    apply in_map_iff in Hf as (p & <- & Hp); apply filter_In in Hp as [Hp Hc].
    cbn [pattern severity category]; split; [exact Hc|]; left.
    split; [reflexivity|]. split; [|exists ps; split; assumption].
    assert (Hall : forallb
              (fun c => str_in (fst c) (emergency_categories ++ urgent_categories))
              red_flag_categories = true) by (vm_compute; reflexivity).
    rewrite forallb_forall in Hall; apply Hall in Hcat.
    apply str_in_In in Hcat; exact Hcat.
  - apply in_map_iff in Hf as (p & <- & Hp); apply filter_In in Hp as [Hp Hc].
    cbn [pattern severity category]; split; [exact Hc|]; right.
    repeat split; assumption.
Qed.

Lemma existsb_false_forall {A : Type} (f : A -> bool) (l : list A) :
  (forall x, In x l -> f x = false) -> existsb f l = false.
Proof.
  intros H; apply not_true_is_false; intros Hex.
  apply existsb_exists in Hex as (x & Hin & Hx).
  rewrite (H x Hin) in Hx; discriminate.
Qed.

(** X3. A list of matches that holds a match of an urgent-eligible category
    (headache, vision, weakness, blood, fever) and none of an
    emergency-eligible category is classified ["urgent"], whatever its
    length. *)
Theorem assess_urgency_urgent_category (flags : list flag) :
  (exists f, In f flags /\ In (category f) urgent_categories) ->
  (forall f, In f flags -> ~ In (category f) emergency_categories) ->
  _assess_urgency flags = py "urgent".
Proof.
  intros (f & Hin & Hcat) Hno.
  unfold _assess_urgency; destruct flags as [|g rest]; [contradiction|].
  rewrite existsb_false_forall
    by (intros x Hx; apply str_in_false, Hno, Hx).
  assert (Hex : existsb
            (fun flag => str_in (category flag) urgent_categories) (g :: rest)
          = true).
  { apply existsb_exists; exists f; split; [assumption|].
    apply str_in_In; assumption. }
  rewrite Hex; reflexivity.
Qed.

Lemma assess_urgency_urgent_category_witness :
  let flags := [
    {| category := py "concerning"; pattern := py "worsening"; severity := py "medium" |};
    {| category := py "fever"; pattern := py "high fever"; severity := py "high" |}
  ] in
  (exists f, In f flags /\ In (category f) urgent_categories) /\
  (forall f, In f flags -> ~ In (category f) emergency_categories) /\
  _assess_urgency flags = py "urgent".
Proof.
  intros flags.
  assert (H1 : exists f, In f flags /\ In (category f) urgent_categories).
  { exists {| category := py "fever"; pattern := py "high fever";
              severity := py "high" |}.
    split; simpl; tauto. }
  assert (H2 : forall f, In f flags ->
                 ~ In (category f) emergency_categories).
  { intros f [<- | [<- | []]]; apply str_in_false; reflexivity. }
  split; [exact H1|]. split; [exact H2|].
  exact (assess_urgency_urgent_category flags H1 H2).
Defined.

(** X4. The classifier only ever answers one of the four levels, and it
    answers ["low"] for the empty list of matches and for no other list. *)
Theorem assess_urgency_levels (flags : list flag) :
  In (_assess_urgency flags)
     [py "low"; py "moderate"; py "urgent"; py "emergency"] /\
  (_assess_urgency flags = py "low" <-> flags = []).
Proof.
  unfold _assess_urgency; destruct flags as [|g rest].
  - split; [left; reflexivity | split; reflexivity].
  - destruct (existsb _ (g :: rest)); [|destruct (existsb _ (g :: rest));
      [|destruct (3 <=? length (g :: rest))]];
      (split; [cbn [In]; tauto | split; discriminate]).
Qed.

Lemma assess_urgency_rank (flags : list flag) :
  urgency_rank (_assess_urgency flags) =
    match flags with
    | [] => 0
    | _ :: _ =>
        if existsb (fun f => str_in (category f) emergency_categories) flags
        then 3
        else if existsb (fun f => str_in (category f) urgent_categories) flags
        then 2
        else if 3 <=? length flags then 2 else 1
    end.
Proof.
  unfold _assess_urgency; destruct flags as [|g rest]; [reflexivity|].
  destruct (existsb _ (g :: rest)); [reflexivity|].
  destruct (existsb _ (g :: rest)); [reflexivity|].
  destruct (3 <=? length (g :: rest)); reflexivity.
Qed.

Lemma assess_urgency_rank_le (l l' : list flag) :
  (existsb (fun f => str_in (category f) emergency_categories) l = true ->
   existsb (fun f => str_in (category f) emergency_categories) l' = true) ->
  (existsb (fun f => str_in (category f) urgent_categories) l = true ->
   existsb (fun f => str_in (category f) urgent_categories) l' = true) ->
  length l <= length l' ->
  urgency_rank (_assess_urgency l) <= urgency_rank (_assess_urgency l').
Proof.
  intros Hem Hur Hlen; rewrite !assess_urgency_rank.
  destruct l as [|g rest]; [lia|].
  destruct l' as [|g' rest']; [simpl in Hlen; lia|].
  set (em := fun f => str_in (category f) emergency_categories) in *.
  set (ur := fun f => str_in (category f) urgent_categories) in *.
  destruct (existsb em (g :: rest)) eqn:E1.
  - rewrite (Hem eq_refl); constructor.
  - destruct (existsb em (g' :: rest')).
    + destruct (existsb ur (g :: rest));
        [|destruct (3 <=? length (g :: rest))]; lia.
    + destruct (existsb ur (g :: rest)) eqn:E2.
      * rewrite (Hur eq_refl); constructor.
      * destruct (existsb ur (g' :: rest'));
          destruct (Nat.leb_spec 3 (length (g :: rest)));
          destruct (Nat.leb_spec 3 (length (g' :: rest'))); lia.
Qed.

Lemma existsb_incl {A : Type} (f : A -> bool) (l l' : list A) :
  incl l l' -> existsb f l = true -> existsb f l' = true.
Proof.
  intros Hincl H; apply existsb_exists in H as (x & Hin & Hx).
  apply existsb_exists; exists x; split; [apply Hincl; exact Hin | exact Hx].
Qed.

(** X5. More matches never lower the urgency: when every match of one list
    is in another list that is at least as long, the level of the second is
    at least the level of the first (low < moderate < urgent < emergency). *)
Theorem assess_urgency_monotone (l l' : list flag) :
  incl l l' -> length l <= length l' ->
  urgency_rank (_assess_urgency l) <= urgency_rank (_assess_urgency l').
Proof.
  intros Hincl Hlen; apply assess_urgency_rank_le.
  - apply existsb_incl; exact Hincl.
  - apply existsb_incl; exact Hincl.
  - exact Hlen.
Qed.

Lemma assess_urgency_monotone_witness :
  let c := {| category := py "concerning"; pattern := py "worsening"; severity := py "medium" |} in
  let h := {| category := py "headache"; pattern := py "worst headache"; severity := py "high" |} in
  incl [c] [h; c] /\ length [c] <= length [h; c] /\
  urgency_rank (_assess_urgency [c]) <= urgency_rank (_assess_urgency [h; c]).
Proof.
  intros c h.
  assert (H1 : incl [c] [h; c]) by (intros x [<- | []]; simpl; tauto).
  assert (H2 : length [c] <= length [h; c]) by (simpl; lia).
  split; [exact H1|]. split; [exact H2|].
  exact (assess_urgency_monotone H1 H2).
Defined.

Lemma occurs_trans (p d d' : str) : occurs p d -> occurs d d' -> occurs p d'.
Proof.
  intros (a & b & ->) (a' & b' & ->).
  exists (a' ++ a), (b ++ b'); rewrite <- !app_assoc; reflexivity.
Qed.

Lemma contains_mono (p d d' : str) :
  occurs d d' -> contains p d = true -> contains p d' = true.
Proof.
  intros Hd Hp; apply contains_spec; apply contains_spec in Hp.
  eapply occurs_trans; eassumption.
Qed.

Lemma filter_length_mono {A : Type} (f g : A -> bool) (l : list A) :
  (forall x, f x = true -> g x = true) ->
  length (filter f l) <= length (filter g l).
Proof.
  intros H; induction l as [|x l IH]; [reflexivity|]; simpl.
  destruct (f x) eqn:E; [rewrite (H x E); simpl; lia|].
  destruct (g x); simpl; lia.
Qed.

Lemma detect_red_flags_length (U : Unicode) (description : str) :
  length (_detect_red_flags U description) =
    length (filter (fun p => contains p (lower U description))
              catalogue_phrases).
Proof.
  rewrite detect_red_flags_spec; unfold catalogue_phrases.
  rewrite filter_app, !length_app, length_map; f_equal.
  induction red_flag_categories as [|[cat ps] cats IH]; [reflexivity|].
  cbn [flat_map snd]; rewrite filter_app, !length_app, length_map, IH.
  reflexivity.
Qed.

Lemma detect_red_flags_In (U : Unicode) (description : str) (f : flag) :
  In f (_detect_red_flags U description) <->
  contains (pattern f) (lower U description) = true /\
  ((exists patterns, In (category f, patterns) red_flag_categories /\
                     In (pattern f) patterns /\ severity f = py "high") \/
   (category f = py "concerning" /\ In (pattern f) concerning_patterns /\
    severity f = py "medium")).
Proof.
  rewrite detect_red_flags_spec, in_app_iff, in_flat_map, in_map_iff; split.
  - intros [([cat ps] & Hcat & Hf) | (p & <- & Hp)].
    + apply in_map_iff in Hf as (p & <- & Hp).
      apply filter_In in Hp as [Hp Hc]; cbn [pattern category severity].
      split; [exact Hc|]; left; exists ps; repeat split; assumption.
    + apply filter_In in Hp as [Hp Hc]; cbn [pattern category severity].
      split; [exact Hc|]; right; repeat split; assumption.
  - destruct f as [cat p sev]; cbn [pattern category severity].
    intros [Hc [(ps & Hcat & Hp & ->) | (-> & Hp & ->)]].
    + left; exists (cat, ps); split; [exact Hcat|].
      apply (in_map (fun q => {| category := cat; pattern := q;
                                 severity := py "high" |})).
      apply filter_In; split; assumption.
    + right; exists p; split; [reflexivity|].
      apply filter_In; split; assumption.
Qed.

Lemma latin1_lower_occurs (c c' : str) :
  occurs c c' -> occurs (lower latin1 c) (lower latin1 c').
Proof.
  intros (a & b & ->); exists (lower latin1 a), (lower latin1 b).
  cbn [lower latin1]; rewrite !map_app; reflexivity.
Qed.

(** X6. Text around a description never hides a match and never lowers the
    urgency: when a text occurs inside a longer text, every flag found in
    the first is found in the second, and the level of the second is at
    least the level of the first. *)
Theorem urgency_monotone_in_text (c c' : str) :
  occurs c c' ->
  incl (_detect_red_flags latin1 c) (_detect_red_flags latin1 c') /\
  urgency_rank (_assess_urgency (_detect_red_flags latin1 c)) <=
  urgency_rank (_assess_urgency (_detect_red_flags latin1 c')).
Proof.
  intros Hocc; apply latin1_lower_occurs in Hocc.
  assert (Hincl : incl (_detect_red_flags latin1 c)
                       (_detect_red_flags latin1 c')).
  { intros f Hf; apply detect_red_flags_In in Hf as [Hc Hf].
    apply detect_red_flags_In; split; [|exact Hf].
    apply (contains_mono _ Hocc Hc). }
  split; [exact Hincl|].
  apply assess_urgency_rank_le.
  - apply existsb_incl; exact Hincl.
  - apply existsb_incl; exact Hincl.
  - rewrite !detect_red_flags_length; apply filter_length_mono.
    intros p; apply contains_mono; exact Hocc.
Qed.

Lemma urgency_monotone_in_text_witness :
  occurs (py "high fever") (py "high fever and chest pain") /\
  incl (_detect_red_flags latin1 (py "high fever"))
       (_detect_red_flags latin1 (py "high fever and chest pain")) /\
  urgency_rank (_assess_urgency (_detect_red_flags latin1 (py "high fever")))
  <= urgency_rank
       (_assess_urgency
          (_detect_red_flags latin1 (py "high fever and chest pain"))).
Proof.
  assert (H : occurs (py "high fever") (py "high fever and chest pain"))
    by (exists [], (py " and chest pain"); reflexivity).
  split; [exact H | exact (urgency_monotone_in_text H)].
Defined.

(** ** The sanitizer *)

(** X7. A sanitized text has between 3 and 500 characters and is never
    longer than the raw text. *)
Theorem sanitize_output_length (symptom y : str) :
  sanitize_symptom_input latin1 symptom = Ok y ->
  3 <= length y <= 500 /\ length y <= length symptom.
Proof.
  intros H; apply sanitize_ok_inv in H as [-> Hlen].
  pose proof (cleaned_length_le latin1 symptom) as Hle.
  cbn [lower latin1]; rewrite length_map; lia.
Qed.

Lemma sanitize_output_length_witness :
  sanitize_symptom_input latin1 (py "  Fever &  CHILLS ") = Ok (py "fever  chills")
  /\ (3 <= length (py "fever  chills") <= 500 /\
      length (py "fever  chills") <= length (py "  Fever &  CHILLS ")).
Proof.
  assert (H : sanitize_symptom_input latin1 (py "  Fever &  CHILLS ")
              = Ok (py "fever  chills")) by (vm_compute; reflexivity).
  split; [exact H | exact (sanitize_output_length _ H)].
Defined.

Lemma sanitize_output_lower_and_kept_witness :
  sanitize_symptom_input latin1 (py "Chest PAIN (bad)!") = Ok (py "chest pain bad!")
  /\ (lower latin1 (py "chest pain bad!") = py "chest pain bad!" /\
      Forall (fun c => kept latin1 c = true) (py "chest pain bad!")).
Proof.
  assert (H : sanitize_symptom_input latin1 (py "Chest PAIN (bad)!")
              = Ok (py "chest pain bad!")) by (vm_compute; reflexivity).
  split; [exact H | exact (sanitize_output_lower_and_kept _ H)].
Defined.

Lemma sanitize_idempotent_on_allowed_text_witness :
  Forall (fun c => kept latin1 c = true) (py "  Chest   PAIN, really! ") /\
  sanitize_symptom_input latin1 (py "  Chest   PAIN, really! ")
    = Ok (py "chest pain, really!") /\
  (normalized latin1 (py "chest pain, really!") = true /\
   sanitize_symptom_input latin1 (py "chest pain, really!")
     = Ok (py "chest pain, really!")).
Proof.
  assert (Hk : Forall (fun c => kept latin1 c = true)
                 (py "  Chest   PAIN, really! "))
    by (apply Forall_forall, forallb_forall; vm_compute; reflexivity).
  assert (H : sanitize_symptom_input latin1 (py "  Chest   PAIN, really! ")
              = Ok (py "chest pain, really!")) by (vm_compute; reflexivity).
  split; [exact Hk|]. split; [exact H|].
  exact (sanitize_idempotent_on_allowed_text Hk H).
Defined.

(** X10. The only whitespace character a sanitized text can hold is the
    space U+0020: tabs, line feeds and the other Unicode spaces of the raw
    text are gone, so the text is a single line. *)
Theorem sanitize_output_single_line (symptom y : str) :
  sanitize_symptom_input latin1 symptom = Ok y ->
  Forall (fun c => isspace latin1 c = true -> c = 32%N) y /\
  has_line_break y = false.
Proof.
  intros H; apply sanitize_ok_inv in H as [-> _].
  assert (Hsp : Forall (fun c => isspace latin1 c = true -> c = 32%N)
                  (lower latin1 (cleaned latin1 symptom))).
  { cbn [lower latin1]; apply Forall_map, Forall_forall; intros c Hc Hl.
    unfold cleaned, remove_harmful in Hc; cbv zeta in Hc.
    apply filter_In in Hc as [Hc _].
    pose proof (collapse_from_spaces latin1 false (strip latin1 symptom))
      as Hall.
    rewrite Forall_forall in Hall; specialize (Hall c Hc).
    change (isspace latin1 (latin1_lower_char c) = true) in Hl.
    rewrite latin1_lower_space in Hl; rewrite (Hall Hl); reflexivity. }
  split; [exact Hsp|].
  unfold has_line_break; apply existsb_false_forall; intros c Hc.
  rewrite Forall_forall in Hsp; specialize (Hsp c Hc).
  destruct (N.eqb_spec 10 c) as [<-|]; [|reflexivity].
  discriminate (Hsp eq_refl).
Qed.

Lemma sanitize_output_single_line_witness :
  sanitize_symptom_input latin1 [104; 105; 103; 104; 9; 10; 102; 101; 118; 101; 114]%N
    = Ok (py "high fever") /\
  (Forall (fun c => isspace latin1 c = true -> c = 32%N) (py "high fever") /\
   has_line_break (py "high fever") = false).
Proof.
  assert (H : sanitize_symptom_input latin1
                [104; 105; 103; 104; 9; 10; 102; 101; 118; 101; 114]%N
              = Ok (py "high fever")) by (vm_compute; reflexivity).
  split; [exact H | exact (sanitize_output_single_line _ H)].
Defined.

Lemma latin1_lower_char_kept_eq (c : codepoint) :
  Bool.eqb (kept latin1 (latin1_lower_char c)) (kept latin1 c) = true.
Proof. by_latin1_block c; apply eqb_reflx. Qed.

Lemma latin1_lower_lstrip (s : str) :
  lstrip latin1 (lower latin1 s) = lower latin1 (lstrip latin1 s).
Proof.
  induction s as [|c s IH]; [reflexivity|].
  change (lower latin1 (c :: s)) with (latin1_lower_char c :: lower latin1 s).
  cbn [lstrip]; rewrite latin1_lower_space.
  destruct (isspace latin1 c); [exact IH | reflexivity].
Qed.

Lemma latin1_lower_strip (s : str) :
  strip latin1 (lower latin1 s) = lower latin1 (strip latin1 s).
Proof.
  unfold strip, rstrip; rewrite latin1_lower_lstrip.
  cbn [lower latin1]; rewrite <- map_rev.
  change (map latin1_lower_char (rev (lstrip latin1 s)))
    with (lower latin1 (rev (lstrip latin1 s))).
  rewrite latin1_lower_lstrip; cbn [lower latin1]; rewrite map_rev.
  reflexivity.
Qed.

Lemma latin1_lower_collapse (b : bool) (s : str) :
  collapse_from latin1 b (lower latin1 s) =
  lower latin1 (collapse_from latin1 b s).
Proof.
  revert b; induction s as [|c s IH]; intros b; [reflexivity|].
  change (lower latin1 (c :: s)) with (latin1_lower_char c :: lower latin1 s).
  cbn [collapse_from]; rewrite latin1_lower_space.
  destruct (isspace latin1 c); [destruct b|]; rewrite IH; reflexivity.
Qed.

Lemma latin1_lower_remove (s : str) :
  remove_harmful latin1 (lower latin1 s) =
  lower latin1 (remove_harmful latin1 s).
Proof.
  unfold remove_harmful; induction s as [|c s IH]; [reflexivity|].
  change (lower latin1 (c :: s)) with (latin1_lower_char c :: lower latin1 s).
  cbn [filter]; rewrite (eqb_prop _ _ (latin1_lower_char_kept_eq c)), IH.
  destruct (kept latin1 c); reflexivity.
Qed.

Lemma latin1_lower_cleaned (s : str) :
  cleaned latin1 (lower latin1 s) = lower latin1 (cleaned latin1 s).
Proof.
  unfold cleaned, collapse_whitespace; cbv zeta.
  rewrite latin1_lower_strip, latin1_lower_collapse, latin1_lower_remove.
  reflexivity.
Qed.

(** X11. The sanitizer ignores the case of the letters of the raw text: a
    text and its lower-cased form are accepted or rejected alike, with the
    same result. *)
Theorem sanitize_ignores_case (symptom : str) :
  sanitize_symptom_input latin1 (lower latin1 symptom) =
  sanitize_symptom_input latin1 symptom.
Proof.
  rewrite !sanitize_unfold, latin1_lower_cleaned.
  replace (length (lower latin1 (cleaned latin1 symptom)))
    with (length (cleaned latin1 symptom))
    by (cbn [lower latin1]; rewrite length_map; reflexivity).
  rewrite latin1_lower_idem; reflexivity.
Qed.

(** ** The analysis *)

Lemma assess_urgency_low_inv (flags : list flag) :
  _assess_urgency flags = py "low" -> flags = [].
Proof.
  unfold _assess_urgency; destruct flags as [|g rest]; [reflexivity|].
  destruct (existsb _ (g :: rest)); [discriminate|].
  destruct (existsb _ (g :: rest)); [discriminate|].
  destruct (3 <=? length (g :: rest)); discriminate.
Qed.

Lemma filter_nil_iff {A : Type} (f : A -> bool) (l : list A) :
  filter f l = [] <-> Forall (fun x => f x = false) l.
Proof.
  split; [|apply filter_none].
  induction l as [|x l IH]; [constructor|]; simpl.
  destruct (f x) eqn:E; [discriminate|].
  intros H; constructor; [exact E | apply IH, H].
Qed.

(** X12. In an analysis that went through, the cleaned input has between 3
    and 500 characters, every reported pattern occurs in it as it stands,
    and the urgency is ["low"] exactly when no phrase of the catalogue
    occurs in it. *)
Theorem analysis_reports_what_occurs (now : datetime) (x : str)
    (a : analysis) :
  analyze_symptoms latin1 now x = Ok (Analysis a) ->
  3 <= length (cleaned_input a) <= 500 /\
  Forall (fun f => contains (pattern f) (cleaned_input a) = true)
    (red_flags a) /\
  (urgency_level a = py "low" <->
   Forall (fun p => contains p (cleaned_input a) = false) catalogue_phrases).
Proof.
  rewrite analyze_unfold.
  destruct (sanitize_symptom_input latin1 x) as [clean|e] eqn:E;
    [|discriminate].
  intros H; inversion H; subst; clear H.
  cbn [cleaned_input red_flags urgency_level].
  apply sanitize_ok_inv in E as [-> Hlen].
  set (clean := lower latin1 (cleaned latin1 x)).
  assert (Hlow : lower latin1 clean = clean) by apply latin1_lower_idem.
  split; [unfold clean; cbn [lower latin1]; rewrite length_map; exact Hlen|].
  split.
  - apply Forall_forall; intros f Hf.
    apply detect_red_flags_In in Hf as [Hc _].
    rewrite Hlow in Hc; exact Hc.
  - pose proof (detect_red_flags_length latin1 clean) as Hl.
    rewrite Hlow in Hl; rewrite <- filter_nil_iff; split.
    + intros H; apply assess_urgency_low_inv in H.
      apply length_zero_iff_nil; rewrite <- Hl, H; reflexivity.
    + intros H; rewrite H in Hl; apply length_zero_iff_nil in Hl.
      rewrite Hl; reflexivity.
Qed.

Lemma analysis_reports_what_occurs_witness :
  exists a,
    analyze_symptoms latin1 0%N (py "Sudden onset of FAINTING") =
      Ok (Analysis a) /\
    (3 <= length (cleaned_input a) <= 500 /\
     Forall (fun f => contains (pattern f) (cleaned_input a) = true)
       (red_flags a) /\
     (urgency_level a = py "low" <->
      Forall (fun p => contains p (cleaned_input a) = false)
        catalogue_phrases)).
Proof.
  eexists; split; [vm_compute; reflexivity|].
  apply (analysis_reports_what_occurs 0%N (py "Sudden onset of FAINTING")).
  vm_compute; reflexivity.
Defined.




Lemma analyze_emergency_phrase_witness :
  sanitize_symptom_input latin1 (py "I feel Chest Tightness") =
    Ok (py "i feel chest tightness") /\
  exists a,
    analyze_symptoms latin1 0%N (py "I feel Chest Tightness") =
      Ok (Analysis a) /\
    urgency_level a = py "emergency" /\
    requires_medical_attention a = true.
Proof.
  assert (H : sanitize_symptom_input latin1 (py "I feel Chest Tightness") =
              Ok (py "i feel chest tightness")) by (vm_compute; reflexivity).
  split; [exact H|].
  apply (@analyze_emergency_phrase latin1 0%N (py "I feel Chest Tightness")
           (py "i feel chest tightness") (py "chest") (py "chest tightness")
           [py "chest pain"; py "chest pressure"; py "chest tightness";
            py "heart pain"] H).
  - vm_compute; tauto.
  - vm_compute; tauto.
  - vm_compute; tauto.
  - vm_compute; reflexivity.
Defined.

Lemma analysis_response_tips_witness :
  exists a,
    analyze_symptoms latin1 0%N (py "my pain is getting worse") =
      Ok (Analysis a) /\
    (contains MEDICAL_DISCLAIMER (response a) = true /\
     (contains (join nl self_care_tips) (response a) = true <->
      urgency_level a = py "low" \/ urgency_level a = py "moderate")).
Proof.
  eexists; split; [vm_compute; reflexivity|].
  apply (analysis_response_tips latin1 0%N (py "my pain is getting worse")).
  vm_compute; reflexivity.
Defined.

(** X16. The list [Config.RED_FLAG_SYMPTOMS] is stored by the detector and
    never read: four of its symptoms ("severe abdominal pain", "severe
    stomach pain", "sudden confusion", "seizure") are not in the catalogue
    of the matcher, and a description made of any of them alone is analysed
    with no match, urgency ["low"] and no need of attention. *)
Theorem configured_red_flags_not_matched (now : datetime) :
  filter (fun p => negb (str_in p catalogue_phrases)) RED_FLAG_SYMPTOMS =
    [py "severe abdominal pain"; py "severe stomach pain";
     py "sudden confusion"; py "seizure"] /\
  Forall
    (fun p =>
       exists a, analyze_symptoms latin1 now p = Ok (Analysis a) /\
                 red_flags a = [] /\ urgency_level a = py "low" /\
                 requires_medical_attention a = false)
    (filter (fun p => negb (str_in p catalogue_phrases)) RED_FLAG_SYMPTOMS).
Proof.
  assert (E : filter (fun p => negb (str_in p catalogue_phrases))
                RED_FLAG_SYMPTOMS =
              [py "severe abdominal pain"; py "severe stomach pain";
               py "sudden confusion"; py "seizure"])
    by (vm_compute; reflexivity).
  split; [exact E|]; rewrite E.
  repeat constructor;
    (eexists; split; [vm_compute; reflexivity | repeat split]).
Qed.

(** ** The validators of habits *)

Lemma dict_get_Some_In {V : Type} (k : str) (d : dict V) :
  In k (map fst d) <-> exists v, dict_get k d = Some v.
Proof.
  induction d as [|[k' v'] d IH]; cbn [map fst In dict_get].
  - split; [contradiction | intros [v H]; discriminate].
  - destruct (str_eqb k k') eqn:E.
    + apply str_eqb_eq in E; subst k'.
      split; [intros _; exists v'; reflexivity | intros _; left; reflexivity].
    + rewrite IH; split; [intros [<- | H]; [|exact H] | intros H; right; exact H].
      rewrite str_eqb_refl in E; discriminate.
Qed.

Lemma dict_get_None_not_In {V : Type} (k : str) (d : dict V) :
  ~ In k (map fst d) -> dict_get k d = None.
Proof.
  intros H; destruct (dict_get k d) as [v|] eqn:E; [|reflexivity].
  exfalso; apply H, dict_get_Some_In; exists v; exact E.
Qed.

Lemma validate_habit_inv (U : Unicode) (habit k : str) :
  validate_habit U habit = Returns k ->
  k = strip U (lower U habit) /\ In k (map fst VALID_HABITS).
Proof.
  unfold validate_habit; cbv zeta.
  destruct (str_in (strip U (lower U habit)) (map fst VALID_HABITS)) eqn:E;
    cbn [negb]; [|discriminate].
  intros H; inversion H; subst; split; [reflexivity|].
  apply str_in_In; exact E.
Qed.

Lemma valid_habit_names_fixed (k : str) :
  In k (map fst VALID_HABITS) -> validate_habit latin1 k = Returns k.
Proof.
  intros Hin.
  assert (Hall : forallb
            (fun k => match validate_habit latin1 k with
                      | Returns k' => str_eqb k' k
                      | Raises _ => false
                      end) (map fst VALID_HABITS) = true)
    by (vm_compute; reflexivity).
  rewrite forallb_forall in Hall; specialize (Hall k Hin).
  destruct (validate_habit latin1 k) as [k'|e]; [|discriminate].
  apply str_eqb_eq in Hall; subst; reflexivity.
Qed.

(** X17. [validate_habit] answers one of the seven habit names of
    [VALID_HABITS], in the form the table has it: validating the answer
    again returns it unchanged, and the case of the letters of the input
    does not matter. *)
Theorem validate_habit_normal_form (habit k : str) :
  validate_habit latin1 habit = Returns k ->
  In k (map fst VALID_HABITS) /\
  validate_habit latin1 k = Returns k /\
  validate_habit latin1 (lower latin1 habit) = Returns k.
Proof.
  intros H; pose proof (validate_habit_inv _ _ H) as [Hk Hin].
  split; [exact Hin|]. split; [apply valid_habit_names_fixed, Hin|].
  unfold validate_habit in *; cbv zeta in *.
  rewrite latin1_lower_idem; exact H.
Qed.

Lemma validate_habit_normal_form_witness :
  validate_habit latin1 (py "  Sleep ") = Returns (py "sleep") /\
  (In (py "sleep") (map fst VALID_HABITS) /\
   validate_habit latin1 (py "sleep") = Returns (py "sleep") /\
   validate_habit latin1 (lower latin1 (py "  Sleep ")) = Returns (py "sleep")).
Proof.
  assert (H : validate_habit latin1 (py "  Sleep ") = Returns (py "sleep"))
    by (vm_compute; reflexivity).
  split; [exact H | exact (validate_habit_normal_form _ H)].
Defined.

Section HabitValidatorFacts.
Variable U : Unicode.
Variable str_type : pyvalue -> str.
Variable str_number : pynumber -> str.
Variable str_int : Z -> str.

(** X18. [validate_value] and [validate_unit] index [VALID_HABITS] with the
    habit as it is given: for a habit that is not a key of the table (a name
    that was not normalized, say) both raise [KeyError], whatever the value
    or the unit, before any other test. *)
Theorem validators_raise_key_error (habit : str) (value : pyvalue)
    (unit : str) :
  ~ In habit (map fst VALID_HABITS) ->
  validate_value str_type str_number str_int habit value =
    Raises (KeyError habit) /\
  validate_unit U habit unit = Raises (KeyError habit).
Proof.
  intros H; apply dict_get_None_not_In in H.
  unfold validate_value, validate_unit; rewrite H; split; reflexivity.
Qed.

Lemma validate_value_no_key_error (habit : str) (value : pyvalue) (e : pyexn) :
  In habit (map fst VALID_HABITS) ->
  validate_value str_type str_number str_int habit value = Raises e ->
  exists msg, e = PyValidationError msg.
Proof.
  intros Hin; apply dict_get_Some_In in Hin as [cfg Hcfg].
  unfold validate_value; rewrite Hcfg.
  destruct value as [v|]; [|intros H; inversion H; eexists; reflexivity].
  destruct (lt_int v (cfg_min cfg) || gt_int v (cfg_max cfg));
    [|discriminate].
  intros H; inversion H; eexists; reflexivity.
Qed.

Lemma validate_unit_no_key_error (habit unit : str) (e : pyexn) :
  In habit (map fst VALID_HABITS) ->
  validate_unit U habit unit = Raises e ->
  exists msg, e = PyValidationError msg.
Proof.
  intros Hin; apply dict_get_Some_In in Hin as [cfg Hcfg].
  unfold validate_unit; rewrite Hcfg; cbv zeta.
  destruct (str_in (strip U (lower U unit)) (cfg_units cfg)); cbn [negb];
    [discriminate|].
  intros H; inversion H; eexists; reflexivity.
Qed.

(** X19. After [validate_habit] the two other validators cannot fail on the
    table: with the name it returned, [validate_value] and [validate_unit]
    either return or raise [ValidationError], never [KeyError]. *)
Theorem validated_habit_has_config (habit k : str) :
  validate_habit U habit = Returns k ->
  (exists cfg, dict_get k VALID_HABITS = Some cfg) /\
  (forall value e,
     validate_value str_type str_number str_int k value = Raises e ->
     exists msg, e = PyValidationError msg) /\
  (forall unit e,
     validate_unit U k unit = Raises e -> exists msg, e = PyValidationError msg).
Proof.
  intros H; apply validate_habit_inv in H as [_ Hin].
  split; [apply dict_get_Some_In, Hin|].
  split.
  - intros value e; apply validate_value_no_key_error, Hin.
  - intros unit e; apply validate_unit_no_key_error, Hin.
Qed.

Lemma lt_int_to_float (v : pynumber) (k : Z) :
  lt_int (PyFloat (to_float v)) k = lt_int v k.
Proof.
  destruct v as [z|f]; [|reflexivity].
  cbn [to_float lt_int]; change (0 <=? 0)%Z with true; cbv iota.
  rewrite Z.pow_0_r, Z.mul_1_r; reflexivity.
Qed.

Lemma gt_int_to_float (v : pynumber) (k : Z) :
  gt_int (PyFloat (to_float v)) k = gt_int v k.
Proof.
  destruct v as [z|f]; [|reflexivity].
  cbn [to_float gt_int]; change (0 <=? 0)%Z with true; cbv iota.
  rewrite Z.pow_0_r, Z.mul_1_r; reflexivity.
Qed.

Lemma validate_value_again (habit : str) (value : pyvalue) (f : pyfloat) :
  validate_value str_type str_number str_int habit value = Returns f ->
  validate_value str_type str_number str_int habit (PyNum (PyFloat f)) =
    Returns f.
Proof.
  unfold validate_value.
  destruct (dict_get habit VALID_HABITS) as [cfg|]; [|discriminate].
  destruct value as [v|]; [|discriminate].
  destruct (lt_int v (cfg_min cfg) || gt_int v (cfg_max cfg)) eqn:E;
    [discriminate|].
  intros H; inversion H; subst f.
  rewrite lt_int_to_float, gt_int_to_float, E; reflexivity.
Qed.

(** X20. For a habit of the table, [validate_value] accepts an integer
    exactly when it lies between the minimum and the maximum of the habit,
    both included, and returns it as a float; it rejects the infinities and
    what is not a number with [ValidationError]; it accepts NaN, whose
    comparisons are all false; and what it returns passes the validation
    again unchanged. *)
Theorem validate_value_range (habit : str) (cfg : habit_config) :
  dict_get habit VALID_HABITS = Some cfg ->
  (forall z,
     validate_value str_type str_number str_int habit (PyNum (PyInt z)) =
       Returns (Finite z 0) <->
     (cfg_min cfg <= z <= cfg_max cfg)%Z) /\
  validate_value str_type str_number str_int habit (PyNum (PyFloat NaN)) =
    Returns NaN /\
  (forall value,
     In value [PyNum (PyFloat PosInf); PyNum (PyFloat NegInf); PyOther] ->
     exists msg,
       validate_value str_type str_number str_int habit value =
         Raises (PyValidationError msg)) /\
  (forall value f,
     validate_value str_type str_number str_int habit value = Returns f ->
     validate_value str_type str_number str_int habit (PyNum (PyFloat f)) =
       Returns f).
Proof.
  intros Hcfg; split; [|split; [|split]].
  - intros z; unfold validate_value; rewrite Hcfg; cbn [lt_int gt_int to_float].
    destruct (Z.ltb_spec z (cfg_min cfg)); cbn [orb].
    + split; [discriminate | lia].
    + destruct (Z.ltb_spec (cfg_max cfg) z).
      * split; [discriminate | lia].
      * split; [intros _; lia | reflexivity].
  - unfold validate_value; rewrite Hcfg; reflexivity.
  - intros value [<- | [<- | [<- | []]]]; unfold validate_value; rewrite Hcfg;
      cbn [lt_int gt_int orb]; eexists; reflexivity.
  - intros value f; apply validate_value_again.
Qed.

End HabitValidatorFacts.

Lemma validators_raise_key_error_witness :
  ~ In (py "Sleep") (map fst VALID_HABITS) /\
  validate_value (fun _ => []) (fun _ => []) (fun _ => []) (py "Sleep")
    (PyNum (PyInt 8)) = Raises (KeyError (py "Sleep")) /\
  validate_unit latin1 (py "Sleep") (py "hours") =
    Raises (KeyError (py "Sleep")).
Proof.
  assert (H : ~ In (py "Sleep") (map fst VALID_HABITS))
    by (apply str_in_false; vm_compute; reflexivity).
  split; [exact H|].
  exact (@validators_raise_key_error latin1 (fun _ => []) (fun _ => [])
           (fun _ => []) (py "Sleep") (PyNum (PyInt 8)) (py "hours") H).
Defined.

Lemma validated_habit_has_config_witness :
  validate_habit latin1 (py " WATER") = Returns (py "water") /\
  (exists cfg, dict_get (py "water") VALID_HABITS = Some cfg) /\
  (forall value e,
     validate_value (fun _ => []) (fun _ => []) (fun _ => []) (py "water")
       value = Raises e ->
     exists msg, e = PyValidationError msg) /\
  (forall unit e,
     validate_unit latin1 (py "water") unit = Raises e ->
     exists msg, e = PyValidationError msg).
Proof.
  assert (H : validate_habit latin1 (py " WATER") = Returns (py "water"))
    by (vm_compute; reflexivity).
  split; [exact H|].
  exact (@validated_habit_has_config latin1 (fun _ => []) (fun _ => [])
           (fun _ => []) (py " WATER") (py "water") H).
Defined.

Lemma validate_value_range_witness :
  dict_get (py "sleep") VALID_HABITS =
    Some {| cfg_units := [py "hours"]; cfg_min := 0; cfg_max := 24 |} /\
  validate_value (fun _ => []) (fun _ => []) (fun _ => []) (py "sleep")
    (PyNum (PyFloat NaN)) = Returns NaN.
Proof.
  assert (H : dict_get (py "sleep") VALID_HABITS =
              Some {| cfg_units := [py "hours"]; cfg_min := 0;
                      cfg_max := 24 |}) by (vm_compute; reflexivity).
  split; [exact H|].
  exact (proj1 (proj2 (@validate_value_range (fun _ => []) (fun _ => [])
                         (fun _ => []) (py "sleep") _ H))).
Defined.

Lemma quot_ten (m d : Z) :
  (0 < d)%Z -> (10 * d <= m < 11 * d)%Z -> Z.quot m d = 10%Z.
Proof.
  intros Hd Hm; rewrite Z.quot_div_nonneg by lia.
  symmetry; apply Z.div_unique with (r := (m - 10 * d)%Z); lia.
Qed.

(** X21. [validate_mood_scale] only ever returns an integer between 1 and
    10.  It accepts an integer exactly in that range; it truncates a float
    before the test, so that every float from 10 up to, but excluding, 11
    is accepted as 10; it turns NaN into a [ValidationError]; and on an
    infinite float the [OverflowError] of [int] leaves the function, since
    the handler catches [ValueError] and [TypeError] only. *)
Theorem validate_mood_scale_cases :
  (forall mood k, validate_mood_scale mood = Returns k -> (1 <= k <= 10)%Z) /\
  (forall z, validate_mood_scale (PyInt z) = Returns z <-> (1 <= z <= 10)%Z) /\
  (forall m e, (e < 0)%Z -> (10 * 2 ^ (- e) <= m < 11 * 2 ^ (- e))%Z ->
     validate_mood_scale (PyFloat (Finite m e)) = Returns 10%Z) /\
  (exists msg,
     validate_mood_scale (PyFloat NaN) = Raises (PyValidationError msg)) /\
  (forall f, In f [PosInf; NegInf] ->
     exists msg, validate_mood_scale (PyFloat f) = Raises (OverflowError msg)).
Proof.
  split; [|split; [|split; [|split]]].
  - intros mood k; unfold validate_mood_scale.
    destruct (to_int mood) as [z|e] eqn:E; cbn [and_then].
    + destruct ((z <? 1)%Z || (10 <? z)%Z) eqn:Ez; [discriminate|].
      intros H; inversion H; subst.
      apply orb_false_iff in Ez as [E1 E2].
      apply Z.ltb_ge in E1; apply Z.ltb_ge in E2; lia.
    + destruct e; discriminate.
  - intros z; unfold validate_mood_scale; cbn [to_int and_then].
    destruct (Z.ltb_spec z 1); cbn [orb].
    + split; [discriminate | lia].
    + destruct (Z.ltb_spec 10 z).
      * split; [discriminate | lia].
      * split; [intros _; lia | reflexivity].
  - intros m e He Hm; unfold validate_mood_scale; cbn [to_int].
    destruct (Z.leb_spec 0 e); [lia|]; cbn [and_then].
    rewrite quot_ten; [reflexivity | apply Z.pow_pos_nonneg; lia | exact Hm].
  - eexists; reflexivity.
  - intros f [<- | [<- | []]]; eexists; reflexivity.
Qed.

(** ** The tracker *)

Lemma validate_habit_raises (U : Unicode) (habit : str) (e : pyexn) :
  validate_habit U habit = Raises e -> exists msg, e = PyValidationError msg.
Proof.
  unfold validate_habit; cbv zeta.
  destruct (negb (str_in (strip U (lower U habit)) (map fst VALID_HABITS)));
    [|discriminate].
  intros H; injection H as <-; eexists; reflexivity.
Qed.

Lemma validate_unit_inv (U : Unicode) (habit unit u : str) :
  validate_unit U habit unit = Returns u ->
  exists cfg, dict_get habit VALID_HABITS = Some cfg /\ In u (cfg_units cfg).
Proof.
  unfold validate_unit.
  destruct (dict_get habit VALID_HABITS) as [cfg|]; [|discriminate].
  cbv zeta.
  destruct (str_in (strip U (lower U unit)) (cfg_units cfg)) eqn:E;
    cbn [negb]; [|discriminate].
  intros H; injection H as <-.
  exists cfg; split; [reflexivity | apply str_in_In; exact E].
Qed.

Section TrackerFacts.
Variable U : Unicode.
Variable str_type : pyvalue -> str.
Variable str_number : pynumber -> str.
Variable str_int : Z -> str.
Variable str_exn : pyexn -> str.
Variable Store : Type.
Variable add_habit_entry : HabitEntry -> Store -> bool * Store * list event.

(** X22. [track_habit] hands the store validated entries only.  When one of
    the three validators raises, called in turn on the habit, on the value
    with the validated habit and on the unit with the validated habit, the
    exception is a [ValidationError]: the store is not called and not
    changed, the answer is [False] and the one line printed is the
    validation error.  When the three validators return, the store is called
    once, with the entry made of what they returned, the notes and the time
    given (the clock when no time is given): its answer and its new state
    are returned, its output comes first, followed by the line of success
    (and the note, when one is given) or of failure, and the entry holds a habit of
    [VALID_HABITS], one of the units of that habit and a value that passes
    [validate_value] again unchanged. *)
Theorem track_habit_stores_validated_entries (habit : str) (value : pyvalue)
    (unit : str) (notes : option str) (timestamp : option datetime)
    (now : datetime) (store : Store) :
  let r := track_habit U str_type str_number str_int str_exn
             add_habit_entry habit value unit notes timestamp now store in
  (forall e, validate_habit U habit = Raises e ->
     exists msg, e = PyValidationError msg /\
       r = (false, store, [Print (py "âŒ Validation Error: " ++ msg)])) /\
  (forall k e, validate_habit U habit = Returns k ->
     validate_value str_type str_number str_int k value = Raises e ->
     exists msg, e = PyValidationError msg /\
       r = (false, store, [Print (py "âŒ Validation Error: " ++ msg)])) /\
  (forall k f e, validate_habit U habit = Returns k ->
     validate_value str_type str_number str_int k value = Returns f ->
     validate_unit U k unit = Raises e ->
     exists msg, e = PyValidationError msg /\
       r = (false, store, [Print (py "âŒ Validation Error: " ++ msg)])) /\
  (forall k f u, validate_habit U habit = Returns k ->
     validate_value str_type str_number str_int k value = Returns f ->
     validate_unit U k unit = Returns u ->
     let entry := {| entry_habit := k; entry_value := f; entry_unit := u;
                     entry_timestamp := match timestamp with
                                        | None => now
                                        | Some t => t
                                        end;
                     entry_notes := notes |} in
     fst r = fst (add_habit_entry entry store) /\
     snd r =
       snd (add_habit_entry entry store)
       ++ (if fst (fst (add_habit_entry entry store))
           then Print (py "âœ… Tracked " ++ k ++ py ": "
                       ++ str_number (PyFloat f) ++ py " " ++ u)
                  :: match notes_given notes with
                     | Some notes => [Print (py "   Note: " ++ notes)]
                     | None => []
                     end
           else [Print (py "âŒ Failed to track " ++ k)]) /\
     In k (map fst VALID_HABITS) /\
     (exists cfg, dict_get k VALID_HABITS = Some cfg /\
                  In u (cfg_units cfg)) /\
     validate_value str_type str_number str_int k (PyNum (PyFloat f)) =
       Returns f).
Proof.
  cbv zeta; unfold track_habit; split; [|split; [|split]].
  - intros e He; destruct (validate_habit_raises _ _ He) as [msg ->].
    exists msg; split; [reflexivity|]; rewrite He; reflexivity.
  - intros k e Hk He.
    pose proof (validate_habit_inv _ _ Hk) as [_ Hin].
    destruct (validate_value_no_key_error _ _ _ _ Hin He) as [msg ->].
    exists msg; split; [reflexivity|].
    rewrite Hk; cbn [and_then]; rewrite He; reflexivity.
  - intros k f e Hk Hf He.
    pose proof (validate_habit_inv _ _ Hk) as [_ Hin].
    destruct (validate_unit_no_key_error _ _ Hin He) as [msg ->].
    exists msg; split; [reflexivity|].
    rewrite Hk; cbn [and_then]; rewrite Hf; cbn [and_then]; rewrite He.
    reflexivity.
  - intros k f u Hk Hf Hu.
    pose proof (validate_habit_inv _ _ Hk) as [_ Hin].
    rewrite Hk; cbn [and_then]; rewrite Hf; cbn [and_then]; rewrite Hu.
    cbn [and_then].
    split; [|split; [|split; [exact Hin|split]]].
    + destruct (add_habit_entry _ store) as [[ok st'] out]; reflexivity.
    + destruct (add_habit_entry _ store) as [[ok st'] out]; cbn [fst snd].
      destruct ok; [destruct (notes_given notes)|];
        rewrite <- ?app_assoc; reflexivity.
    + apply (validate_unit_inv _ _ _ Hu).
    + apply (validate_value_again _ _ _ _ _ Hf).
Qed.

End TrackerFacts.

(** ** The symptom checkers *)

Lemma banner_lines_head (flags : list flag) (urgency : str) :
  exists c l rest,
    banner_lines flags urgency = (c :: l) :: rest /\
    In c [128680; 9888; 8505]%N.
Proof.
  unfold banner_lines; cbv zeta.
  destruct (str_eqb urgency (py "emergency")).
  - destruct (append_emergency_advice_cases flags
                ([] ++ [py "🚨 MEDICAL EMERGENCY DETECTED 🚨"]
                 ++ [py "This appears to be a medical emergency. Call 911 or emergency services IMMEDIATELY."]))
      as [E | (advice & _ & E)]; rewrite app_assoc in E; rewrite E;
      (eexists _, _, _; split; [vm_compute; reflexivity | cbn [In]; tauto]).
  - destruct (str_eqb urgency (py "urgent"));
      [|destruct (str_eqb urgency (py "moderate"))];
      (eexists _, _, _; split; [vm_compute; reflexivity | cbn [In]; tauto]).
Qed.

Lemma generate_response_head (description : str) (flags : list flag)
    (urgency : str) :
  exists c rest,
    _generate_response description flags urgency = c :: rest /\
    In c [128680; 9888; 8505]%N.
Proof.
  unfold _generate_response; rewrite response_lines_sections.
  destruct (banner_lines_head flags urgency) as (c & l & rest & -> & Hc).
  exists c; rewrite <- app_comm_cons.
  generalize (rest ++ detected_symptoms flags ++ [nl ++ MEDICAL_DISCLAIMER]
              ++ (if str_in urgency [py "low"; py "moderate"]
                  then self_care_tips else [])).
  intros more; destruct more as [|y more];
    eexists; (split; [reflexivity | exact Hc]).
Qed.

Lemma sanitize_short_message (U : Unicode) (s : str) :
  length s < 3 ->
  sanitize_symptom_input U s =
    Raise (ValidationError
             (py "Symptom description must be at least 3 characters")).
Proof.
  intros H; pose proof (cleaned_length_le U s) as Hle.
  rewrite sanitize_unfold.
  destruct (Nat.ltb_spec (length (cleaned U s)) 3); [reflexivity | lia].
Qed.

Section SymptomCheckerFacts.
Variable U : Unicode.
Variable title : str -> str.

(** X23. The interactive checker does not analyse a line that is too short
    once stripped: after the four lines of the header and the prompt it
    prints one line only, ["No symptoms entered."] for a blank line and the
    error of the sanitizer for a line of one or two characters. *)
Theorem interactive_check_short_line (now : datetime) (line : str) :
  length (strip U line) < 3 ->
  check_symptoms_interactive U now (Line line) =
    [Print (nl ++ py "🩺 Symptom Checker");
     Print (py "Describe your symptoms below. This tool will help identify if you need immediate medical attention.");
     Print MEDICAL_DISCLAIMER;
     Print (nl ++ py "What symptoms are you experiencing?");
     Prompt (py "> ");
     Print (match strip U line with
            | [] => py "No symptoms entered."
            | _ :: _ =>
                py "❌ " ++ py "Error analyzing symptoms: "
                ++ py "Symptom description must be at least 3 characters"
            end)].
Proof.
  intros Hlen; unfold check_symptoms_interactive; cbv zeta.
  destruct (strip U line) as [|c s] eqn:E; [reflexivity|].
  rewrite analyze_unfold, (@sanitize_short_message U (c :: s) Hlen).
  reflexivity.
Qed.

(** X24. Whatever the user does, the interactive checker first prints its
    header, which holds the medical disclaimer, and prompts.  The line that
    reports the urgency level of a logged check is printed exactly when a
    line was entered, its analysis went through and the urgency is
    ["urgent"] or ["emergency"]. *)
Theorem interactive_check_log_line (now : datetime) (inp : input_outcome) :
  firstn 5 (check_symptoms_interactive U now inp) =
    [Print (nl ++ py "🩺 Symptom Checker");
     Print (py "Describe your symptoms below. This tool will help identify if you need immediate medical attention.");
     Print MEDICAL_DISCLAIMER;
     Print (nl ++ py "What symptoms are you experiencing?");
     Prompt (py "> ")] /\
  ((exists u,
      In (Print (nl ++ py "📝 This symptom check was logged with urgency level: " ++ u))
         (check_symptoms_interactive U now inp)) <->
   (exists line a,
      inp = Line line /\ strip U line <> [] /\
      analyze_symptoms U now (strip U line) = Ok (Analysis a) /\
      (urgency_level a = py "urgent" \/ urgency_level a = py "emergency"))).
Proof.
  split.
  - unfold check_symptoms_interactive; cbv zeta.
    destruct inp as [line| |]; [|reflexivity|reflexivity].
    destruct (strip U line) as [|c s]; [reflexivity|].
    destruct (analyze_symptoms U now (c :: s)) as [[a|f]|e];
      [destruct (requires_medical_attention a)| |]; reflexivity.
  - unfold check_symptoms_interactive; cbv zeta.
    destruct inp as [line| |].
    2:{ split; [|intros (l & a & H & _); discriminate].
        intros (u & Hin); exfalso; cbn [app In] in Hin.
        repeat (destruct Hin as [Hin | Hin];
                [try discriminate; injection Hin as Hin;
                 try (vm_compute in Hin; discriminate)|]);
          try contradiction. }
    2:{ split; [|intros (l & a & H & _); discriminate].
        intros (u & Hin); exfalso; cbn [app In] in Hin.
        repeat (destruct Hin as [Hin | Hin];
                [try discriminate; injection Hin as Hin;
                 try (vm_compute in Hin; discriminate)|]);
          try contradiction. }
    destruct (strip U line) as [|c s] eqn:Es.
    { split; [|intros (l & a & H & Hne & _); injection H as <-;
               rewrite Es in Hne; congruence].
      intros (u & Hin); exfalso; cbn [app In] in Hin.
      repeat (destruct Hin as [Hin | Hin];
              [try discriminate; injection Hin as Hin;
               try (vm_compute in Hin; discriminate)|]);
        try contradiction. }
    destruct (analyze_symptoms U now (c :: s)) as [[a|f]|e] eqn:Ea.
    + assert (Hreq : requires_medical_attention a = true <->
                     urgency_level a = py "urgent" \/
                     urgency_level a = py "emergency").
      { rewrite analyze_unfold in Ea.
        destruct (sanitize_symptom_input U (c :: s)); [|discriminate].
        injection Ea as <-; cbn [requires_medical_attention urgency_level].
        rewrite !orb_true_iff, !str_eqb_eq; intuition discriminate. }
      assert (Hresp : exists h rest, response a = h :: rest /\
                        In h [128680; 9888; 8505]%N).
      { rewrite analyze_unfold in Ea.
        destruct (sanitize_symptom_input U (c :: s)); [|discriminate].
        injection Ea as <-; cbn [response]; apply generate_response_head. }
      destruct (requires_medical_attention a) eqn:Er.
      * split; [intros _|intros _].
        -- exists line, a; rewrite Es.
           repeat split; [discriminate | exact Ea | apply Hreq; reflexivity].
        -- exists (urgency_level a); rewrite !in_app_iff.
           right; left; reflexivity.
      * split.
        -- intros (u & Hin); exfalso; cbn [app In] in Hin.
           destruct Hresp as (h & rest & Hh & Hc).
           repeat (destruct Hin as [Hin | Hin];
                   [try discriminate; injection Hin as Hin;
                    try (vm_compute in Hin; discriminate)|]);
             try contradiction.
           rewrite Hh in Hin; injection Hin as Hin _; subst h.
           cbn [In] in Hc; intuition discriminate.
        -- intros (l & a' & Hl & _ & Ha' & Hu); injection Hl as <-.
           rewrite Es, Ea in Ha'; injection Ha' as <-.
           apply Hreq in Hu; discriminate.
    + split.
      * intros (u & Hin); exfalso; cbn [app In] in Hin.
        repeat (destruct Hin as [Hin | Hin];
                [try discriminate; injection Hin as Hin;
                 try (vm_compute in Hin; discriminate)|]);
          try contradiction.
      * intros (l & a' & Hl & _ & Ha' & _); injection Hl as <-.
        rewrite Es, Ea in Ha'; discriminate.
    + split.
      * intros (u & Hin); exfalso; cbn [app In] in Hin.
        repeat (destruct Hin as [Hin | Hin];
                [try discriminate; injection Hin as Hin;
                 try (vm_compute in Hin; discriminate)|]);
          try contradiction.
      * intros (l & a' & Hl & _ & Ha' & _); injection Hl as <-.
        rewrite Es, Ea in Ha'; discriminate.
Qed.

End SymptomCheckerFacts.

Lemma interactive_check_short_line_witness :
  length (strip latin1 (py "  ok  ")) < 3 /\
  check_symptoms_interactive latin1 0%N (Line (py "  ok  ")) =
    [Print (nl ++ py "🩺 Symptom Checker");
     Print (py "Describe your symptoms below. This tool will help identify if you need immediate medical attention.");
     Print MEDICAL_DISCLAIMER;
     Print (nl ++ py "What symptoms are you experiencing?");
     Prompt (py "> ");
     Print (match strip latin1 (py "  ok  ") with
            | [] => py "No symptoms entered."
            | _ :: _ =>
                py "❌ " ++ py "Error analyzing symptoms: "
                ++ py "Symptom description must be at least 3 characters"
            end)].
Proof.
  assert (H : length (strip latin1 (py "  ok  ")) < 3)
    by (apply Nat.ltb_lt; vm_compute; reflexivity).
  split; [exact H|].
  exact (@interactive_check_short_line latin1 0%N (py "  ok  ") H).
Defined.

Lemma assess_urgency_in_levels (flags : list flag) :
  _assess_urgency flags = py "low" \/ _assess_urgency flags = py "moderate" \/
  _assess_urgency flags = py "urgent" \/ _assess_urgency flags = py "emergency".
Proof.
  unfold _assess_urgency; destruct flags as [|g rest]; [tauto|].
  destruct (existsb _ (g :: rest)); [tauto|].
  destruct (existsb _ (g :: rest)); [tauto|].
  destruct (3 <=? length (g :: rest)); tauto.
Qed.

(** X25. Given a description, the command [symptom] of the command line
    never ends on an exception and writes twice to the console: the notice
    that the analysis runs, then either the error of the analysis, in red,
    or one panel with the response.  The border of the panel is red,
    yellow, blue or green, never the default white, and it is red exactly
    for an emergency. *)
Theorem check_symptoms_console (U : Unicode) (title : str -> str)
    (c : codepoint) (d : str) (now : datetime) (inp : input_outcome) :
  exists e,
    check_symptoms U title (Some (c :: d)) now inp =
      ([ConsolePrint (py "🩺 Analyzing symptoms...") (py "bold blue"); e],
       None) /\
    match e with
    | ConsolePanel body heading border =>
        exists a,
          analyze_symptoms U now (c :: d) = Ok (Analysis a) /\
          body = response a /\
          heading = py "Symptom Analysis - " ++ title (urgency_level a)
                    ++ py " Priority" /\
          In border [py "red"; py "yellow"; py "blue"; py "green"] /\
          (border = py "red" <-> urgency_level a = py "emergency")
    | ConsolePrint text style =>
        exists f,
          analyze_symptoms U now (c :: d) = Ok (Failure f) /\
          text = py "❌ " ++ error f /\ style = py "red"
    | _ => False
    end.
Proof.
  unfold check_symptoms; rewrite analyze_unfold.
  destruct (sanitize_symptom_input U (c :: d)) as [clean|e]; cbv zeta.
  - eexists; split; [reflexivity|].
    eexists; split; [reflexivity|].
    cbn [response urgency_level].
    split; [reflexivity|]. split; [reflexivity|].
    destruct (assess_urgency_in_levels (_detect_red_flags U clean))
      as [E | [E | [E | E]]]; rewrite E;
      (split; [vm_compute; tauto|]);
      (split; [intros H; vm_compute in H; try discriminate; reflexivity
              | intros H; vm_compute in H; try discriminate;
                vm_compute; reflexivity]).
  - eexists; split; [reflexivity|].
    eexists; split; [reflexivity|]; split; reflexivity.
Qed.
